(* ========================================================================= *)
(*  osu_lib/calculator.py : statistics resolution and calculation pipeline   *)
(*                                                                           *)
(*  Shallow embedding of OsuCalculator:                                      *)
(*    _extract_stat, _has_valid_stats, _sim_osu, _sim_taiko, _sim_mania,     *)
(*    _sim_catch, _parse_mods and calculate; and of OsuEnvironment.setup.    *)
(*                                                                           *)
(*  Numbers.  Python ints are Z.  Python floats are modelled by exact        *)
(*  rationals Q (a real-number idealisation of the float arithmetic); the    *)
(*  float literals of the source (100.0, 0.25, 0.75, 0.96, ...) are the      *)
(*  rationals they denote.  Python's round(x) on a float is round half to    *)
(*  even, written out in [py_round].  [sim_mania_f] is [_sim_mania] with     *)
(*  its float arithmetic written out as IEEE 754 binary64 (round to nearest, *)
(*  ties to even, subnormals, overflow to infinity, and the OverflowError /  *)
(*  ValueError of int-to-float conversion and of round()).                   *)
(*                                                                           *)
(*  Dicts.  A statistics dict is a stdpp [gmap string Z]; a result dict      *)
(*  built from a literal {k1: v1, ...} is the association list of its        *)
(*  entries in insertion order.                                              *)
(*                                                                           *)
(*  Exceptions.  Code that may raise returns [Exc A]: either a value or the  *)
(*  exception object that propagates out of it.                              *)
(*                                                                           *)
(*  Text.  Strings are Stdlib strings.  [_parse_mods] is parameterised by    *)
(*  the function [str.upper] (Unicode case mapping, not written out); its    *)
(*  ASCII restriction [str_upper] serves for concrete inputs.                *)
(* ========================================================================= *)

From Stdlib Require Import ZArith QArith Qround Qabs Qpower Lia Lqa Bool List String Ascii.
From stdpp Require Import base gmap strings.

Import ListNotations.
Set Warnings "-register-all".
Open Scope Z_scope.

(* ------------------------------------------------------------------------- *)
(*  Python exceptions and the error monad                                    *)
(* ------------------------------------------------------------------------- *)

(** A Python exception object: its class name, [str(e)], and whether its
    class derives from [Exception] ([KeyboardInterrupt], [SystemExit] and
    [GeneratorExit] derive from [BaseException] only). *)
Record PyExn := mkExn {
  exn_type : string;
  exn_msg : string;
  exn_is_Exception : bool
}.

Inductive Exc (A : Type) : Type :=
| PyOk (a : A)
| PyRaise (e : PyExn).
Arguments PyOk {A} a.
Arguments PyRaise {A} e.

Definition exc_bind {A B} (m : Exc A) (k : A -> Exc B) : Exc B :=
  match m with
  | PyOk a => k a
  | PyRaise e => PyRaise e
  end.

Notation "x <- m ;; k" := (exc_bind m (fun x => k))
  (at level 100, m at next level, right associativity).

Definition ZeroDivisionError : PyExn :=
  mkExn "ZeroDivisionError" "float division by zero" true.

(** [x / y] on floats where [y] is computed: raises ZeroDivisionError at 0.
    Divisions by a non-zero float literal are written with Qdiv directly. *)
Definition pydiv (x y : Q) : Exc Q :=
  if Qeq_bool y 0 then PyRaise ZeroDivisionError else PyOk (x / y)%Q.

(* ------------------------------------------------------------------------- *)
(*  Python builtins on numbers                                               *)
(* ------------------------------------------------------------------------- *)

(** [round(x)] on a float: nearest integer, ties to the even one. *)
Definition py_round (x : Q) : Z :=
  let f := Qfloor x in
  match Qcompare (x - inject_Z f)%Q (1 # 2) with
  | Lt => f
  | Gt => f + 1
  | Eq => if Z.even f then f else f + 1
  end.

(** [max(a, b)] and [min(a, b)] on floats: the first argument unless the
    second is strictly larger (resp. smaller). *)
Definition qmax (a b : Q) : Q := if Qlt_le_dec a b then b else a.
Definition qmin (a b : Q) : Q := if Qlt_le_dec b a then b else a.

(** [max(0, n)] on ints. *)
Definition zmax0 (n : Z) : Z := Z.max 0 n.

(* ------------------------------------------------------------------------- *)
(*  Binary64 floats                                                          *)
(* ------------------------------------------------------------------------- *)

(** [2 ^ z] for any integer [z], as a rational. *)
Definition pow2 (z : Z) : Q := Qpower (2 # 1) z.

(** [floor(log2 x)] for [x > 0]. *)
Definition qlog2 (x : Q) : Z :=
  let e := Z.log2 (Qnum x) - Z.log2 (Zpos (Qden x)) in
  if Qle_bool (pow2 e) x then e else e - 1.

(** The exponent of the unit in the last place of a binary64 number near
    [x > 0]: 53 significant bits, down to the subnormal step [2 ^ -1074]. *)
Definition ulp_exp (x : Q) : Z := Z.max (qlog2 x - 52) (-1074).

(** Rounding of [x > 0] to a multiple of its ulp, ties to even. *)
Definition round_pos (x : Q) : Q :=
  let q := ulp_exp x in (inject_Z (py_round (x / pow2 q)) * pow2 q)%Q.

(** Round to nearest binary64 value, ties to even (exponent range not
    bounded above: overflow is detected by [overflows]). *)
Definition fl64 (x : Q) : Q :=
  match Qcompare x 0 with
  | Gt => round_pos x
  | Lt => Qopp (round_pos (Qopp x))
  | Eq => 0%Q
  end.

(** A Python float: a finite binary64 value, a signed infinity or a NaN. *)
Inductive PyFloat := Fin (x : Q) | Inf (neg : bool) | NaN.

Definition OverflowError (msg : string) : PyExn := mkExn "OverflowError" msg true.
Definition ValueError (msg : string) : PyExn := mkExn "ValueError" msg true.

(** A rounded value that is at least [2 ^ 1024] in magnitude is out of the
    binary64 range. *)
Definition overflows (r : Q) : bool := Qle_bool (pow2 1024) (Qabs r).

(** The float result of an exact value: rounded, infinite on overflow. *)
Definition to_float (x : Q) : PyFloat :=
  let r := fl64 x in
  if overflows r then Inf (Qle_bool r 0) else Fin r.

(** [float(n)] for an int, also done implicitly by [int op float]. *)
Definition int_to_float (n : Z) : Exc PyFloat :=
  let r := fl64 (inject_Z n) in
  if overflows r then PyRaise (OverflowError "int too large to convert to float")
  else PyOk (Fin r).

(** A float literal of the source, such as [0.96]. *)
Definition lit (x : Q) : PyFloat := Fin (fl64 x).

Definition fneg (x : PyFloat) : PyFloat :=
  match x with Fin a => Fin (- a) | Inf s => Inf (negb s) | NaN => NaN end.

Definition fadd (x y : PyFloat) : PyFloat :=
  match x, y with
  | Fin a, Fin b => to_float (a + b)
  | Fin _, Inf s | Inf s, Fin _ => Inf s
  | Inf s, Inf t => if Bool.eqb s t then Inf s else NaN
  | _, _ => NaN
  end.

Definition fsub (x y : PyFloat) : PyFloat := fadd x (fneg y).

Definition fmul (x y : PyFloat) : PyFloat :=
  match x, y with
  | Fin a, Fin b => to_float (a * b)
  | Fin a, Inf s | Inf s, Fin a =>
      if Qeq_bool a 0 then NaN else Inf (xorb s (negb (Qle_bool 0 a)))
  | Inf s, Inf t => Inf (xorb s t)
  | _, _ => NaN
  end.

Definition fdiv (x y : PyFloat) : Exc PyFloat :=
  match y with
  | Fin b =>
      if Qeq_bool b 0 then PyRaise ZeroDivisionError
      else PyOk (match x with
                 | Fin a => to_float (a / b)
                 | Inf s => Inf (xorb s (negb (Qle_bool 0 b)))
                 | NaN => NaN
                 end)
  | Inf t =>
      PyOk (match x with Fin a => Fin 0 | _ => NaN end)
  | NaN => PyOk NaN
  end.

Definition fge (x y : PyFloat) : bool :=
  match x, y with
  | Fin a, Fin b => Qle_bool b a
  | Inf s, Fin _ => negb s
  | Fin _, Inf t => t
  | Inf s, Inf t => t || negb s
  | _, _ => false
  end.

Definition py_round_f (x : PyFloat) : Exc Z :=
  match x with
  | Fin a => PyOk (py_round a)
  | Inf _ => PyRaise (OverflowError "cannot convert float infinity to integer")
  | NaN => PyRaise (ValueError "cannot convert float NaN to integer")
  end.

Inductive PyNum := PyInt (n : Z) | PyFlt (x : PyFloat).

Definition as_float (v : PyNum) : Exc PyFloat :=
  match v with PyInt n => int_to_float n | PyFlt x => PyOk x end.

(* ------------------------------------------------------------------------- *)
(*  Judgments, hit objects, beatmaps                                         *)
(* ------------------------------------------------------------------------- *)

(** The members of osu!'s [HitResult] enum used by the simulators. *)
Inductive HitResult :=
| Perfect | Great | Good | Ok | Meh | Miss
| LargeTickHit | SmallTickHit | SmallTickMiss.

(** Hit objects of a converted beatmap.  The catch classes are distinguished
    because [_sim_catch] inspects them; [TinyDroplet] is a subclass of
    [Droplet]; [JuiceStream] and [BananaShower] carry their nested objects;
    [OtherObject] stands for the objects of the other rulesets. *)
Inductive HitObject :=
| Fruit
| Droplet
| TinyDroplet
| Banana
| JuiceStream (NestedHitObjects : list HitObject)
| BananaShower (NestedHitObjects : list HitObject)
| OtherObject.

Record Beatmap := mkBeatmap { HitObjects : list HitObject }.

(** [beatmap.HitObjects.Count] *)
Definition hit_count (bm : Beatmap) : Z := Z.of_nat (length (HitObjects bm)).

(** A result dict: entries in insertion order. *)
Definition HitStats := list (HitResult * Z).

Definition HitResult_eqb (a b : HitResult) : bool :=
  match a, b with
  | Perfect, Perfect | Great, Great | Good, Good | Ok, Ok | Meh, Meh
  | Miss, Miss | LargeTickHit, LargeTickHit | SmallTickHit, SmallTickHit
  | SmallTickMiss, SmallTickMiss => true
  | _, _ => false
  end.

(** The count a result dict gives a judgment, an absent key counting 0. *)
Fixpoint count_of (s : HitStats) (k : HitResult) : Z :=
  match s with
  | [] => 0
  | (k', v) :: s' => if HitResult_eqb k k' then v else count_of s' k
  end.

(* ------------------------------------------------------------------------- *)
(*  Explicit statistics: _extract_stat and _has_valid_stats                  *)
(* ------------------------------------------------------------------------- *)

(** The [stats_obj] / [statistics] argument: [None] or a dict. *)
Definition StatsObj := option (gmap string Z).

(** [_extract_stat(stats_obj, attr_name)] with the default 0. *)
Definition extract_stat (stats_obj : StatsObj) (attr_name : string) : Z :=
  match stats_obj with
  | None => 0
  | Some d => default 0 (d !! attr_name)
  end.

Definition probe_keys : list string :=
  ["great"; "ok"; "meh"; "good"; "perfect"; "miss"; "large_tick_hit"].

(** [_has_valid_stats]: [not stats_obj] holds for None and for the empty
    dict; otherwise the loop returns True at the first key whose value is
    positive. *)
Definition has_valid_stats (stats_obj : StatsObj) : bool :=
  match stats_obj with
  | None => false
  | Some d =>
      if decide (d = ∅) then false
      else existsb (fun k => 0 <? extract_stat stats_obj k) probe_keys
  end.

(* ------------------------------------------------------------------------- *)
(*  _sim_osu (Standard)                                                      *)
(* ------------------------------------------------------------------------- *)

(** The result dict of the fallback path of [_sim_osu], from line
    [n300 = total - n100 - n50 - misses] on. *)
Definition osu_result (total n100 n50 misses : Z) : HitStats :=
  let n300 := total - n100 - n50 - misses in
  [(Great, zmax0 n300); (Ok, zmax0 n100); (Meh, zmax0 n50);
   (Miss, zmax0 misses)].

(** [_sim_osu(acc, beatmap, misses, stats_obj)].  [math.pow(b, 2)] is [b * b]. *)
Definition sim_osu (acc : Q) (beatmap : Beatmap) (misses : Z)
    (stats_obj : StatsObj) : Exc HitStats :=
  if has_valid_stats stats_obj then
    PyOk [(Great, extract_stat stats_obj "great");
          (Ok, extract_stat stats_obj "ok");
          (Meh, extract_stat stats_obj "meh");
          (Miss, extract_stat stats_obj "miss")]
  else
    let total := hit_count beatmap in
    let relevant := total - misses in
    let accuracy := (acc / 100)%Q in
    if relevant <=? 0 then PyOk [(Miss, misses)] else
    rel_acc <- pydiv (accuracy * inject_Z total)%Q (inject_Z relevant) ;;
    let rel_acc := qmax 0 (qmin 1 rel_acc) in
    if Qle_bool (1 # 4) rel_acc then
      let ratio := (let b := 1 - (rel_acc - (1 # 4)) / (3 # 4) in b * b)%Q in
      c100 <- pydiv (inject_Z (6 * relevant) * (1 - rel_acc))%Q
                    (5 * ratio + 4)%Q ;;
      let c50 := (c100 * ratio)%Q in
      let n100 := py_round c100 in
      let n50 := py_round (c100 + c50)%Q - n100 in
      PyOk (osu_result total n100 n50 misses)
    else if Qle_bool (1 / 6) rel_acc then
      let c100 := (inject_Z (6 * relevant) * rel_acc - inject_Z relevant)%Q in
      let c50 := (inject_Z relevant - c100)%Q in
      let n100 := py_round c100 in
      let n50 := py_round (c100 + c50)%Q - n100 in
      PyOk (osu_result total n100 n50 misses)
    else
      let c50 := (inject_Z (6 * relevant) * rel_acc)%Q in
      let n50 := py_round c50 in
      let misses := total - n50 in
      PyOk (osu_result total 0 n50 misses).

(* ------------------------------------------------------------------------- *)
(*  _sim_taiko                                                               *)
(* ------------------------------------------------------------------------- *)

(** [_sim_taiko(acc, beatmap, misses, stats_obj)] *)
Definition sim_taiko (acc : Q) (beatmap : Beatmap) (misses : Z)
    (stats_obj : StatsObj) : HitStats :=
  if has_valid_stats stats_obj then
    [(Great, extract_stat stats_obj "great");
     (Ok, extract_stat stats_obj "ok");
     (Miss, extract_stat stats_obj "miss")]
  else
    let total := hit_count beatmap in
    let relevant := total - misses in
    let accuracy := (acc / 100)%Q in
    let n_great := py_round ((2 * accuracy - 1) * inject_Z relevant)%Q in
    let n_good := relevant - n_great in
    [(Great, zmax0 n_great); (Ok, zmax0 n_good); (Miss, zmax0 misses)].

(* ------------------------------------------------------------------------- *)
(*  _sim_mania                                                               *)
(* ------------------------------------------------------------------------- *)

(** [_sim_mania(acc, beatmap, misses, score_val, stats_obj)]; [score_val]
    is not read. *)
Definition sim_mania (acc : Q) (beatmap : Beatmap) (misses : Z)
    (score_val : option Q) (stats_obj : StatsObj) : HitStats :=
  if has_valid_stats stats_obj then
    [(Perfect, extract_stat stats_obj "perfect");
     (Great, extract_stat stats_obj "great");
     (Good, extract_stat stats_obj "good");
     (Ok, extract_stat stats_obj "ok");
     (Meh, extract_stat stats_obj "meh");
     (Miss, extract_stat stats_obj "miss")]
  else
    let total := hit_count beatmap in
    let relevant := total - misses in
    let accuracy := (acc / 100)%Q in
    let rel := inject_Z relevant in
    let '(n_perfect, n_great, n_good, n_ok, n_meh) :=
      if 0 <? relevant then
        if Qle_bool (96 # 100) accuracy then
          let p := (1 - (1 - accuracy) / (4 # 100))%Q in
          let n_perfect := py_round (p * rel)%Q in
          (n_perfect, relevant - n_perfect, 0, 0, 0)
        else if Qle_bool (90 # 100) accuracy then
          let p := (1 - ((96 # 100) - accuracy) / (6 # 100))%Q in
          let n_great := py_round (p * rel)%Q in
          (0, n_great, relevant - n_great, 0, 0)
        else if Qle_bool (80 # 100) accuracy then
          let p := (1 - ((90 # 100) - accuracy) / (10 # 100))%Q in
          let n_good := py_round (p * rel)%Q in
          (0, 0, n_good, relevant - n_good, 0)
        else if Qle_bool (60 # 100) accuracy then
          let p := (1 - ((80 # 100) - accuracy) / (20 # 100))%Q in
          let n_ok := py_round (p * rel)%Q in
          (0, 0, 0, n_ok, relevant - n_ok)
        else (0, 0, 0, 0, relevant)
      else (0, 0, 0, 0, 0) in
    [(Perfect, zmax0 n_perfect); (Great, zmax0 n_great); (Good, zmax0 n_good);
     (Ok, zmax0 n_ok); (Meh, zmax0 n_meh); (Miss, zmax0 misses)].

(** [_sim_mania] with Python's float arithmetic: [acc] is an int or a
    float; [acc / 100.0], the band formulas and [p * relevant] are binary64
    operations, [int(round(...))] raises on an infinity or a NaN. *)
Definition sim_mania_f (acc : PyNum) (beatmap : Beatmap) (misses : Z)
    (score_val : option Q) (stats_obj : StatsObj) : Exc HitStats :=
  if has_valid_stats stats_obj then
    PyOk [(Perfect, extract_stat stats_obj "perfect");
     (Great, extract_stat stats_obj "great");
     (Good, extract_stat stats_obj "good");
     (Ok, extract_stat stats_obj "ok");
     (Meh, extract_stat stats_obj "meh");
     (Miss, extract_stat stats_obj "miss")]
  else
    let total := hit_count beatmap in
    let relevant := total - misses in
    acc_f <- as_float acc ;;
    accuracy <- fdiv acc_f (Fin 100%Q) ;;
    counts <-
      (if 0 <? relevant then
        if fge accuracy (lit (96 # 100)) then
          q <- fdiv (fsub (Fin 1%Q) accuracy) (lit (4 # 100)) ;;
          let p := fsub (Fin 1%Q) q in
          r <- int_to_float relevant ;;
          n_perfect <- py_round_f (fmul p r) ;;
          PyOk (n_perfect, relevant - n_perfect, 0, 0, 0)
        else if fge accuracy (lit (90 # 100)) then
          q <- fdiv (fsub (lit (96 # 100)) accuracy) (lit (6 # 100)) ;;
          let p := fsub (Fin 1%Q) q in
          r <- int_to_float relevant ;;
          n_great <- py_round_f (fmul p r) ;;
          PyOk (0, n_great, relevant - n_great, 0, 0)
        else if fge accuracy (lit (80 # 100)) then
          q <- fdiv (fsub (lit (90 # 100)) accuracy) (lit (10 # 100)) ;;
          let p := fsub (Fin 1%Q) q in
          r <- int_to_float relevant ;;
          n_good <- py_round_f (fmul p r) ;;
          PyOk (0, 0, n_good, relevant - n_good, 0)
        else if fge accuracy (lit (60 # 100)) then
          q <- fdiv (fsub (lit (80 # 100)) accuracy) (lit (20 # 100)) ;;
          let p := fsub (Fin 1%Q) q in
          r <- int_to_float relevant ;;
          n_ok <- py_round_f (fmul p r) ;;
          PyOk (0, 0, 0, n_ok, relevant - n_ok)
        else PyOk (0, 0, 0, 0, relevant)
      else PyOk (0, 0, 0, 0, 0)) ;;
    let '(n_perfect, n_great, n_good, n_ok, n_meh) := counts in
    PyOk [(Perfect, zmax0 n_perfect); (Great, zmax0 n_great);
          (Good, zmax0 n_good); (Ok, zmax0 n_ok); (Meh, zmax0 n_meh);
          (Miss, zmax0 misses)].

(* ------------------------------------------------------------------------- *)
(*  _sim_catch                                                               *)
(* ------------------------------------------------------------------------- *)

(** [isinstance] against the catch object classes. *)
Definition is_Fruit (h : HitObject) : bool :=
  match h with Fruit => true | _ => false end.
Definition is_Droplet (h : HitObject) : bool :=
  match h with Droplet | TinyDroplet => true | _ => false end.
Definition is_TinyDroplet (h : HitObject) : bool :=
  match h with TinyDroplet => true | _ => false end.

(** The counters [(max_fruits, max_droplets_total, max_tiny_droplets)]. *)
Definition CatchCounts := (Z * Z * Z)%type.

(** Body of the inner loop [for n in h.NestedHitObjects]. *)
Definition count_nested (c : CatchCounts) (n : HitObject) : CatchCounts :=
  let '(max_fruits, max_droplets_total, max_tiny_droplets) := c in
  if is_TinyDroplet n then
    (max_fruits, max_droplets_total + 1, max_tiny_droplets + 1)
  else if is_Droplet n then
    (max_fruits, max_droplets_total + 1, max_tiny_droplets)
  else if is_Fruit n then
    (max_fruits + 1, max_droplets_total, max_tiny_droplets)
  else c.

(** Body of the outer loop [for h in beatmap.HitObjects]. *)
Definition count_hit_object (c : CatchCounts) (h : HitObject) : CatchCounts :=
  let '(max_fruits, max_droplets_total, max_tiny_droplets) := c in
  if is_Fruit h then (max_fruits + 1, max_droplets_total, max_tiny_droplets)
  else match h with
       | JuiceStream nested => fold_left count_nested nested c
       | _ => c
       end.

Definition catch_counts (beatmap : Beatmap) : CatchCounts :=
  fold_left count_hit_object (HitObjects beatmap) (0, 0, 0).

(** [_sim_catch(acc, beatmap, misses, stats_obj)] *)
Definition sim_catch (acc : Q) (beatmap : Beatmap) (misses : Z)
    (stats_obj : StatsObj) : HitStats :=
  if has_valid_stats stats_obj then
    [(Great, extract_stat stats_obj "great");
     (LargeTickHit, extract_stat stats_obj "large_tick_hit");
     (SmallTickHit, extract_stat stats_obj "small_tick_hit");
     (SmallTickMiss, extract_stat stats_obj "small_tick_miss");
     (Miss, extract_stat stats_obj "miss")]
  else
    let '(max_fruits, max_droplets_total, max_tiny_droplets) :=
      catch_counts beatmap in
    let max_droplets := max_droplets_total - max_tiny_droplets in
    let max_combo := max_fruits + max_droplets in
    let count_droplets := Z.max 0 (max_droplets - misses) in
    let count_fruits := max_fruits in
    let count_tiny := max_tiny_droplets in
    [(Great, count_fruits); (LargeTickHit, count_droplets);
     (SmallTickHit, count_tiny); (Miss, misses)].

(* ------------------------------------------------------------------------- *)
(*  calculate, step 3: the effective miss count                              *)
(* ------------------------------------------------------------------------- *)

(** [effective_misses = misses; if self._has_valid_stats(statistics):
    effective_misses = self._extract_stat(statistics, 'miss')] *)
Definition effective_misses (misses : Z) (statistics : StatsObj) : Z :=
  if has_valid_stats statistics then extract_stat statistics "miss"
  else misses.

(* ------------------------------------------------------------------------- *)
(*  calculate                                                                *)
(* ------------------------------------------------------------------------- *)

(** The difficulty attributes read by [calculate]. *)
Record DiffAttr := mkDiffAttr { StarRating : Q; MaxCombo : Z }.

(** The fields of [ScoreInfo] that [calculate] sets ([BeatmapInfo] apart). *)
Record ScoreInfo (Mods : Type) := mkScoreInfo {
  score_Ruleset : Z;
  score_Mods : Mods;
  score_MaxCombo : Z;
  score_Accuracy : Q;
  score_Statistics : HitStats
}.
Arguments mkScoreInfo {Mods}.

(** The collaborators [calculate] calls and does not define: [os.path], the
    .NET file stream and reader, the beatmap decoder, the ruleset's
    converter, the mod lookup [_parse_mods] over [ruleset.CreateAllMods()],
    the difficulty and performance calculators, and [Dispose].  Each .NET
    call may raise. *)
Record Collaborators (Handle Mods : Type) := {
  abspath : string -> string;
  path_exists : string -> bool;
  FileStream : string -> Exc Handle;
  LineBufferedReader : Handle -> Exc Handle;
  Decode : Handle -> Exc Beatmap;
  CanConvert : Z -> Beatmap -> Exc bool;
  Convert : Z -> Beatmap -> Exc Beatmap;
  parse_mods : Z -> list string -> Exc Mods;
  difficulty : Z -> Beatmap -> Mods -> Exc DiffAttr;
  performance : Z -> ScoreInfo Mods -> DiffAttr -> Exc Q;
  Dispose : Handle -> option PyExn
}.
Arguments abspath {Handle Mods}.
Arguments path_exists {Handle Mods}.
Arguments FileStream {Handle Mods}.
Arguments LineBufferedReader {Handle Mods}.
Arguments Decode {Handle Mods}.
Arguments CanConvert {Handle Mods}.
Arguments Convert {Handle Mods}.
Arguments parse_mods {Handle Mods}.
Arguments difficulty {Handle Mods}.
Arguments performance {Handle Mods}.
Arguments Dispose {Handle Mods}.

(** What [calculate] returns: the success dict or {"error": msg}. *)
Inductive CalcResult :=
| CalcSuccess (mode : Z) (stars pp : Q) (max_combo : Z) (stats_used : HitStats)
| CalcError (msg : string).

(** [self.rulesets.get(mode)] is a ruleset exactly for modes 0 to 3. *)
Definition ruleset_known (mode : Z) : bool := (0 <=? mode) && (mode <=? 3).

(** The [if mode == 0 ... elif mode == 3] dispatch of step 3. *)
Definition sim_dispatch (mode : Z) (acc : Q) (beatmap : Beatmap) (misses : Z)
    (score_val : option Q) (statistics : StatsObj) : Exc HitStats :=
  if mode =? 0 then sim_osu acc beatmap misses statistics
  else if mode =? 1 then PyOk (sim_taiko acc beatmap misses statistics)
  else if mode =? 2 then PyOk (sim_catch acc beatmap misses statistics)
  else if mode =? 3 then PyOk (sim_mania acc beatmap misses score_val statistics)
  else PyOk [].

Section Calculate.
Context {Handle Mods : Type} (env : Collaborators Handle Mods).

(** The [try] block of [calculate]: the values of [fs] and [reader] when it
    is left, and its outcome. *)
Definition calc_try (abs_path : string) (mode : Z) (mods : list string) (acc : Q)
    (combo : option Z) (misses : Z) (score_val : option Q)
    (statistics : StatsObj) : option Handle * option Handle * Exc CalcResult :=
  match FileStream env abs_path with
  | PyRaise e => (None, None, PyRaise e)
  | PyOk fs =>
      match LineBufferedReader env fs with
      | PyRaise e => (Some fs, None, PyRaise e)
      | PyOk reader =>
          (Some fs, Some reader,
           beatmap <- Decode env reader ;;
           can <- CanConvert env mode beatmap ;;
           beatmap <- (if can then Convert env mode beatmap else PyOk beatmap) ;;
           csharp_mods <- parse_mods env mode mods ;;
           diff_attr <- difficulty env mode beatmap csharp_mods ;;
           let eff := effective_misses misses statistics in
           stats <- sim_dispatch mode acc beatmap eff score_val statistics ;;
           let score := mkScoreInfo mode csharp_mods
                          (match combo with
                           | Some c => c
                           | None => MaxCombo diff_attr
                           end)
                          (acc / 100)%Q stats in
           pp <- performance env mode score diff_attr ;;
           PyOk (CalcSuccess mode (StarRating diff_attr) pp
                   (MaxCombo diff_attr) stats))
      end
  end.

(** [if x: x.Dispose()] *)
Definition dispose_opt (h : option Handle) : option PyExn :=
  match h with Some h => Dispose env h | None => None end.

(** The [finally] clause: an exception of [reader.Dispose()] or
    [fs.Dispose()] replaces the outcome of the [try] statement. *)
Definition py_finally (reader fs : option Handle) (r : Exc CalcResult)
    : Exc CalcResult :=
  match dispose_opt reader with
  | Some e => PyRaise e
  | None => match dispose_opt fs with Some e => PyRaise e | None => r end
  end.

(** [calculate(file_path, mode, mods, acc, combo, misses, score_val,
    statistics)]; [except Exception as e] catches the exceptions whose
    class derives from [Exception] and returns {"error": str(e)}. *)
Definition calculate (file_path : string) (mode : Z) (mods : option (list string))
    (acc : Q) (combo : option Z) (misses : Z) (score_val : option Q)
    (statistics : StatsObj) : Exc CalcResult :=
  let mods := match mods with None => [] | Some m => m end in
  let abs_path := abspath env file_path in
  if negb (path_exists env abs_path) then
    PyOk (CalcError (String.append "File not found: " abs_path))
  else if negb (ruleset_known mode) then PyOk (CalcError "Invalid mode")
  else
    let '(fs, reader, outcome) :=
      calc_try abs_path mode mods acc combo misses score_val statistics in
    let handled :=
      match outcome with
      | PyOk r => PyOk r
      | PyRaise e =>
          if exn_is_Exception e then PyOk (CalcError (exn_msg e)) else PyRaise e
      end in
    py_finally reader fs handled.

End Calculate.

(* ------------------------------------------------------------------------- *)
(*  _parse_mods                                                              *)
(* ------------------------------------------------------------------------- *)

(** [str.upper()] restricted to ASCII text: a to z become A to Z, the other
    characters are kept.  Python's [str.upper] applies the full Unicode case
    mapping (for instance 'ſ' becomes 'S'); [_parse_mods] below is defined
    for any [upper], and [str_upper] is used for ASCII inputs only. *)
Definition ascii_upper (c : Ascii.ascii) : Ascii.ascii :=
  let n := Ascii.nat_of_ascii c in
  if (97 <=? n)%nat && (n <=? 122)%nat then Ascii.ascii_of_nat (n - 32) else c.

Fixpoint str_upper (s : string) : string :=
  match s with
  | EmptyString => EmptyString
  | String c s' => String (ascii_upper c) (str_upper s')
  end.

(** A mod object of [ruleset.CreateAllMods()]: [_parse_mods] reads only its
    [Acronym]; [mod_class] stands for the rest of the object. *)
Record Mod := mkMod { Acronym : string; mod_class : string }.

Section ParseMods.

(** Python's [str.upper]. *)
Variable upper : string -> string.

(** The generator's test [str(x.Acronym).upper() == str(m).upper()]. *)
Definition acronym_matches (m : string) (x : Mod) : bool :=
  String.eqb (upper (Acronym x)) (upper m).

(** One iteration of [for m in mod_list]: [next(...)] is the first available
    mod that matches, or [None]; a found mod object is truthy and is added,
    otherwise a warning line is printed.  The state is the C# list and the
    printed lines. *)
Definition parse_mods_step (available_mods : list Mod)
    (st : list Mod * list string) (m : string) : list Mod * list string :=
  let '(csharp_mods, printed) := st in
  match find (acronym_matches m) available_mods with
  | Some found => (csharp_mods ++ [found], printed)
  | None =>
      (csharp_mods,
       printed ++ [String.append "Warning: Mod '" (String.append m "' not found.")])
  end.

(** [_parse_mods(mod_list, ruleset)] with [available_mods =
    ruleset.CreateAllMods()]: the returned list and the printed lines;
    [not mod_list] holds for None and for the empty list. *)
Definition parse_mods_impl (available_mods : list Mod)
    (mod_list : option (list string)) : list Mod * list string :=
  match mod_list with
  | None | Some [] => ([], [])
  | Some ms => fold_left (parse_mods_step available_mods) ms ([], [])
  end.

(** What one requested acronym contributes to the returned list and to the
    printed lines. *)
Definition mod_found (available_mods : list Mod) (m : string) : list Mod :=
  match find (acronym_matches m) available_mods with
  | Some x => [x]
  | None => []
  end.

Definition mod_warning (available_mods : list Mod) (m : string) : list string :=
  match find (acronym_matches m) available_mods with
  | Some _ => []
  | None => [String.append "Warning: Mod '" (String.append m "' not found.")]
  end.

End ParseMods.

(* ------------------------------------------------------------------------- *)
(*  OsuEnvironment.setup                                                     *)
(* ------------------------------------------------------------------------- *)

(** The class attributes [_initialized] and [_dll_folder] of
    [OsuEnvironment], and [sys.path].  Paths are their [str]. *)
Record EnvState := mkEnvState {
  initialized : bool;
  dll_folder : option string;
  sys_path : list string
}.

(** What [setup] calls and does not define: [Path(s)], [p / name],
    [Path(__file__).parent.absolute()], [p.exists()], whether
    [from pythonnet import load] succeeds, what [load("coreclr")] and
    [import clr; import System] raise, and what [clr.AddReference] raises.
    [dotnet_root] is not read by [setup]. *)
Record Host := {
  Path : string -> string;
  path_div : string -> string -> string;
  module_dir : string;
  path_is_present : string -> bool;
  pythonnet_installed : bool;
  load_coreclr : option PyExn;
  import_clr : option PyExn;
  AddReference : string -> option PyExn
}.

Definition libs_to_load : list string :=
  ["osu.Framework.dll"; "osu.Game.dll"; "osu.Game.Rulesets.Osu.dll";
   "osu.Game.Rulesets.Taiko.dll"; "osu.Game.Rulesets.Catch.dll";
   "osu.Game.Rulesets.Mania.dll"].

Definition dev_folder : string := "osu-tools/published_output".

Definition FileNotFoundError (msg : string) : PyExn :=
  mkExn "FileNotFoundError" msg true.

Definition ImportError (msg : string) : PyExn := mkExn "ImportError" msg true.

(** [s.replace('.dll', '')]: every occurrence, scanning left to right. *)
Fixpoint strip_dll (s : string) : string :=
  match s with
  | String "."%char (String "d"%char (String "l"%char (String "l"%char rest))) =>
      strip_dll rest
  | String c rest => String c (strip_dll rest)
  | EmptyString => EmptyString
  end.

(** [Path(dll_folder_path) if dll_folder_path else current_dir / "lib"]. *)
Definition requested_folder (host : Host) (dll_folder_path : option string)
    : string :=
  match dll_folder_path with
  | Some p => if String.eqb p "" then path_div host (module_dir host) "lib"
              else Path host p
  | None => path_div host (module_dir host) "lib"
  end.

(** The loop [for lib in libs_to_load]: the warnings issued, and the
    exception that escapes [except Exception], if any. *)
Fixpoint load_libs (host : Host) (folder : string) (libs : list string)
    : list string * option PyExn :=
  match libs with
  | [] => ([], None)
  | lib :: rest =>
      let path := path_div host folder lib in
      if path_is_present host path then
        match AddReference host (strip_dll path) with
        | None => load_libs host folder rest
        | Some e =>
            if exn_is_Exception e then
              let '(ws, r) := load_libs host folder rest in
              (String.append "加载 " (String.append lib
                 (String.append " 失败: " (exn_msg e))) :: ws, r)
            else ([], Some e)
        end
      else
        let '(ws, r) := load_libs host folder rest in
        (String.append "缺失文件: " lib :: ws, r)
  end.

(** The warnings of one iteration of that loop when the exception of
    [AddReference], if any, is caught by [except Exception]: none for a
    loaded DLL, the load failure for a DLL [AddReference] rejects, the
    missing file otherwise. *)
Definition lib_warning (host : Host) (folder lib : string) : list string :=
  let path := path_div host folder lib in
  if path_is_present host path then
    match AddReference host (strip_dll path) with
    | None => []
    | Some e =>
        [String.append "加载 " (String.append lib
           (String.append " 失败: " (exn_msg e)))]
    end
  else [String.append "缺失文件: " lib].

(** [OsuEnvironment.setup(dll_folder_path)]: the class state and
    [sys.path] afterwards (assignments made before an exception stay), the
    warnings issued, and the exception raised, if any. *)
Definition setup (host : Host) (st : EnvState) (dll_folder_path : option string)
    : EnvState * list string * option PyExn :=
  if initialized st then (st, [], None) else
  let folder := requested_folder host dll_folder_path in
  let dev_path := Path host dev_folder in
  let chosen :=
    if path_is_present host folder then Some folder
    else if path_is_present host dev_path then Some dev_path else None in
  match chosen with
  | None =>
      (mkEnvState false (Some folder) (sys_path st), [],
       Some (FileNotFoundError (String.append "找不到 DLL 目录: " folder)))
  | Some folder =>
      let st1 := mkEnvState false (Some folder) (sys_path st ++ [folder]) in
      let runtime :=
        if pythonnet_installed host then
          match load_coreclr host with
          | Some e => if exn_is_Exception e then None else Some e
          | None => None
          end
        else Some (ImportError "请先安装 pythonnet: pip install pythonnet") in
      match runtime with
      | Some e => (st1, [], Some e)
      | None =>
          match import_clr host with
          | Some e => (st1, [], Some e)
          | None =>
              let '(ws, r) := load_libs host folder libs_to_load in
              match r with
              | Some e => (st1, ws, Some e)
              | None => (mkEnvState true (Some folder) (sys_path st1), ws, None)
              end
          end
      end
  end.

(* ------------------------------------------------------------------------- *)
(*  Concrete inputs                                                          *)
(* ------------------------------------------------------------------------- *)

(** A beatmap of [n] objects (only their count matters outside Catch). *)
Definition other_objects (n : nat) : Beatmap := mkBeatmap (repeat OtherObject n).

(** The statistics dict {great: 50, ok: 0, meh: 0, miss: 2}. *)
Definition stats_great50_miss2 : StatsObj :=
  Some (list_to_map [("great", 50); ("ok", 0); ("meh", 0); ("miss", 2)]).

(* ------------------------------------------------------------------------- *)
(*  The Mania band table, following the words of the spec                    *)
(* ------------------------------------------------------------------------- *)

(** Spec, Mania fallback: five bands on [accuracy]; in each, the upper tier
    gets [round(p * relevant)] and the lower tier the rest of [relevant];
    below 0.60 every relevant object is a Meh; [Miss = missCount]. *)
Definition mania_band_split (accuracy : Q) (relevant misses : Z) : HitStats :=
  let tiers (p : Q) := py_round (p * inject_Z relevant)%Q in
  if Qle_bool (96 # 100) accuracy then
    let u := tiers (1 - (1 - accuracy) / (4 # 100))%Q in
    [(Perfect, u); (Great, relevant - u); (Good, 0); (Ok, 0); (Meh, 0);
     (Miss, misses)]
  else if Qle_bool (90 # 100) accuracy then
    let u := tiers (1 - ((96 # 100) - accuracy) / (6 # 100))%Q in
    [(Perfect, 0); (Great, u); (Good, relevant - u); (Ok, 0); (Meh, 0);
     (Miss, misses)]
  else if Qle_bool (80 # 100) accuracy then
    let u := tiers (1 - ((90 # 100) - accuracy) / (10 # 100))%Q in
    [(Perfect, 0); (Great, 0); (Good, u); (Ok, relevant - u); (Meh, 0);
     (Miss, misses)]
  else if Qle_bool (60 # 100) accuracy then
    let u := tiers (1 - ((80 # 100) - accuracy) / (20 # 100))%Q in
    [(Perfect, 0); (Great, 0); (Good, 0); (Ok, u); (Meh, relevant - u);
     (Miss, misses)]
  else
    [(Perfect, 0); (Great, 0); (Good, 0); (Ok, 0); (Meh, relevant);
     (Miss, misses)].

(** The same table read in binary64: [p = 1 - (hi - accuracy) / w] and
    [p * relevant] are each rounded to the nearest float, and the float
    literals 0.96, 0.04, ... are their nearest floats. *)
Definition mania_tier_b64 (hi w a : Q) (relevant : Z) : Z :=
  py_round (fl64 (fl64 (1 - fl64 (fl64 (hi - a) / w)) * fl64 (inject_Z relevant))).

Definition mania_band_split_b64 (accuracy : Q) (relevant misses : Z) : HitStats :=
  let tier (hi w : Q) := mania_tier_b64 hi (fl64 w) accuracy relevant in
  if Qle_bool (fl64 (96 # 100)) accuracy then
    let u := tier 1%Q (4 # 100) in
    [(Perfect, u); (Great, relevant - u); (Good, 0); (Ok, 0); (Meh, 0);
     (Miss, misses)]
  else if Qle_bool (fl64 (90 # 100)) accuracy then
    let u := tier (fl64 (96 # 100)) (6 # 100) in
    [(Perfect, 0); (Great, u); (Good, relevant - u); (Ok, 0); (Meh, 0);
     (Miss, misses)]
  else if Qle_bool (fl64 (80 # 100)) accuracy then
    let u := tier (fl64 (90 # 100)) (10 # 100) in
    [(Perfect, 0); (Great, 0); (Good, u); (Ok, relevant - u); (Meh, 0);
     (Miss, misses)]
  else if Qle_bool (fl64 (60 # 100)) accuracy then
    let u := tier (fl64 (80 # 100)) (20 # 100) in
    [(Perfect, 0); (Great, 0); (Good, 0); (Ok, u); (Meh, relevant - u);
     (Miss, misses)]
  else
    [(Perfect, 0); (Great, 0); (Good, 0); (Ok, 0); (Meh, relevant);
     (Miss, misses)].

(* ------------------------------------------------------------------------- *)
(*  Catch object counts, following the words of the spec                     *)
(* ------------------------------------------------------------------------- *)

(** The objects nested in a juice stream (none for other objects). *)
Definition juice_nested (h : HitObject) : list HitObject :=
  match h with JuiceStream nested => nested | _ => [] end.

Definition all_juice_nested (beatmap : Beatmap) : list HitObject :=
  flat_map juice_nested (HitObjects beatmap).

Definition count_where (P : HitObject -> bool) (l : list HitObject) : Z :=
  Z.of_nat (length (List.filter P l)).

(** Spec, CatchObjectCounts: fruits counted directly, juice streams
    contributing their nested fruits, droplets and tiny droplets (a tiny
    droplet is a droplet); [maxDroplets = maxDropletsTotal - maxTinyDroplets]. *)
Definition spec_max_fruits (beatmap : Beatmap) : Z :=
  count_where is_Fruit (HitObjects beatmap) +
  count_where is_Fruit (all_juice_nested beatmap).
Definition spec_max_droplets_total (beatmap : Beatmap) : Z :=
  count_where is_Droplet (all_juice_nested beatmap).
Definition spec_max_tiny_droplets (beatmap : Beatmap) : Z :=
  count_where is_TinyDroplet (all_juice_nested beatmap).
Definition spec_max_droplets (beatmap : Beatmap) : Z :=
  spec_max_droplets_total beatmap - spec_max_tiny_droplets beatmap.

(** A chart with 30 fruits and one juice stream of 10 droplets and 5 tiny
    droplets: maxFruits = 30, maxDroplets = 10, maxTinyDroplets = 5. *)
Definition catch_chart_30_10_5 : Beatmap :=
  mkBeatmap (repeat Fruit 30 ++
             [JuiceStream (repeat Droplet 10 ++ repeat TinyDroplet 5)]).

(** A [KeyboardInterrupt]: its class derives from [BaseException] only. *)
Definition KeyboardInterrupt : PyExn := mkExn "KeyboardInterrupt" "" false.

(** A .NET decoding failure surfaced by pythonnet (an [Exception]). *)
Definition DecodeFailure : PyExn :=
  mkExn "InvalidOperationException" "Beatmap could not be decoded" true.

(** Collaborators for a working directory [/home/user] in which the file
    exists or not; decoding yields [decoded]; the rest succeeds. *)
Definition stub_env (file_exists : bool) (decoded : Exc Beatmap)
    : Collaborators unit unit := {|
  abspath := fun p => String.append "/home/user/" p;
  path_exists := fun _ => file_exists;
  FileStream := fun _ => PyOk tt;
  LineBufferedReader := fun _ => PyOk tt;
  Decode := fun _ => decoded;
  CanConvert := fun _ _ => PyOk false;
  Convert := fun _ b => PyOk b;
  parse_mods := fun _ _ => PyOk tt;
  difficulty := fun _ _ _ => PyOk (mkDiffAttr 5 100);
  performance := fun _ _ _ => PyOk 200%Q;
  Dispose := fun _ => None
|}.

(** Catch statistics with only tiny-droplet fields set. *)
Definition stats_small_ticks_only : gmap string Z :=
  list_to_map [("small_tick_hit", 120); ("small_tick_miss", 4)].

(** Three of the mods [CreateAllMods()] returns for osu!standard. *)
Definition demo_mods : list Mod :=
  [mkMod "HD" "OsuModHidden"; mkMod "DT" "OsuModDoubleTime";
   mkMod "HR" "OsuModHardRock"].

(** A process that has not run [setup] yet, with one entry on [sys.path]. *)
Definition fresh_env : EnvState := mkEnvState false None ["/usr/lib/python3"].

(** A host whose package directory is [/opt/osu_lib]: its [lib] folder and
    every file under it are present or not ([lib_present]); pythonnet is
    installed or not; [AddReference] fails on osu.Framework with an
    [Exception] and succeeds on the other DLLs. *)
Definition demo_host (lib_present pythonnet : bool) : Host := {|
  Path := fun s => s;
  path_div := fun a b => String.append a (String.append "/" b);
  module_dir := "/opt/osu_lib";
  path_is_present := fun _ => lib_present;
  pythonnet_installed := pythonnet;
  load_coreclr := None;
  import_clr := None;
  AddReference := fun s =>
    if String.eqb s "/opt/osu_lib/lib/osu.Framework" then
      Some (mkExn "FileLoadException" "Could not load osu.Framework" true)
    else None
|}.

(** A .NET failure of [Dispose] surfaced by pythonnet (an [Exception]). *)
Definition DisposeFailure : PyExn :=
  mkExn "IOException" "The stream could not be closed" true.

(** [stub_env] in which every [Dispose] call raises [DisposeFailure]. *)
Definition dispose_fail_env (decoded : Exc Beatmap) : Collaborators unit unit := {|
  abspath := fun p => String.append "/home/user/" p;
  path_exists := fun _ => true;
  FileStream := fun _ => PyOk tt;
  LineBufferedReader := fun _ => PyOk tt;
  Decode := fun _ => decoded;
  CanConvert := fun _ _ => PyOk false;
  Convert := fun _ b => PyOk b;
  parse_mods := fun _ _ => PyOk tt;
  difficulty := fun _ _ _ => PyOk (mkDiffAttr 5 100);
  performance := fun _ _ _ => PyOk 200%Q;
  Dispose := fun _ => Some DisposeFailure
|}.

(* ========================================================================= *)
(*  Lemmas on the Python builtins                                            *)
(* ========================================================================= *)

Lemma py_round_cases (x : Q) :
  ((x - inject_Z (Qfloor x) < 1 # 2)%Q /\ py_round x = Qfloor x) \/
  ((x - inject_Z (Qfloor x) == 1 # 2)%Q /\
     py_round x = (if Z.even (Qfloor x) then Qfloor x else Qfloor x + 1)) \/
  ((1 # 2 < x - inject_Z (Qfloor x))%Q /\ py_round x = Qfloor x + 1).
Proof.
  unfold py_round.
  destruct (Qcompare_spec (x - inject_Z (Qfloor x)) (1 # 2)) as [H|H|H]; auto.
Qed.

Lemma py_round_floor (x : Q) : Qfloor x <= py_round x <= Qfloor x + 1.
Proof.
  destruct (py_round_cases x) as [[_ R]|[[_ R]|[_ R]]]; rewrite R;
    try destruct (Z.even _); lia.
Qed.

Lemma py_round_mono (x y : Q) : (x <= y)%Q -> py_round x <= py_round y.
Proof.
  intros Hxy. pose proof (Qfloor_resp_le _ _ Hxy) as Hf.
  destruct (Z.eq_dec (Qfloor x) (Qfloor y)) as [E|NE].
  - assert (Hd : (x - inject_Z (Qfloor y) <= y - inject_Z (Qfloor y))%Q) by lra.
    destruct (py_round_cases x) as [[Hx Rx]|[[Hx Rx]|[Hx Rx]]];
    destruct (py_round_cases y) as [[Hy Ry]|[[Hy Ry]|[Hy Ry]]];
    rewrite Rx, Ry; rewrite E in *;
    try lia; try (destruct (Z.even _); lia); exfalso; lra.
  - pose proof (py_round_floor x); pose proof (py_round_floor y); lia.
Qed.

Lemma py_round_Z (n : Z) : py_round (inject_Z n) = n.
Proof.
  unfold py_round. rewrite Qfloor_Z.
  destruct (Qcompare_spec (inject_Z n - inject_Z n) (1 # 2)) as [H|H|H];
    [exfalso; lra | reflexivity | exfalso; lra].
Qed.

#[global] Instance py_round_proper : Proper (Qeq ==> eq) py_round.
Proof.
  intros x y H. apply Z.le_antisymm; apply py_round_mono; rewrite H; apply Qle_refl.
Qed.

Lemma py_round_le_Z (x : Q) (n : Z) : (x <= inject_Z n)%Q -> py_round x <= n.
Proof. intros H. apply py_round_mono in H. now rewrite py_round_Z in H. Qed.

Lemma py_round_ge_Z (x : Q) (n : Z) : (inject_Z n <= x)%Q -> n <= py_round x.
Proof. intros H. apply py_round_mono in H. now rewrite py_round_Z in H. Qed.

Lemma pydiv_ok (x y : Q) : ~ (y == 0)%Q -> pydiv x y = PyOk (x / y)%Q.
Proof.
  unfold pydiv. destruct (Qeq_bool y 0) eqn:E; [|reflexivity].
  apply Qeq_bool_eq in E. contradiction.
Qed.

Lemma clamp01 (x : Q) : (0 <= qmax 0 (qmin 1 x) <= 1)%Q.
Proof.
  unfold qmax, qmin.
  destruct (Qlt_le_dec x 1); destruct (Qlt_le_dec 0 _); lra.
Qed.

Lemma inject_Z_pos (n : Z) : 0 < n -> (0 < inject_Z n)%Q.
Proof. intros H. change 0%Q with (inject_Z 0). now rewrite <- Zlt_Qlt. Qed.

Lemma inject_Z_nonneg (n : Z) : 0 <= n -> (0 <= inject_Z n)%Q.
Proof. intros H. change 0%Q with (inject_Z 0). now rewrite <- Zle_Qle. Qed.

Ltac qdiv_const := unfold Qdiv in *; cbn [Qinv Qnum Qden] in *.

Lemma acc_fraction (acc : Q) : (0 <= acc <= 100)%Q -> (0 <= acc / 100 <= 1)%Q.
Proof. intros. qdiv_const. lra. Qed.

(** [round(p * relevant)] lies in [0, relevant] when [0 <= p <= 1]. *)
Lemma round_share (p : Q) (relevant : Z) :
  0 < relevant -> (0 <= p <= 1)%Q ->
  0 <= py_round (p * inject_Z relevant)%Q <= relevant.
Proof.
  intros Hr [Hp0 Hp1]. pose proof (inject_Z_pos _ Hr) as HR. split.
  - apply (py_round_ge_Z _ 0). change (inject_Z 0) with 0%Q. nra.
  - apply py_round_le_Z. nra.
Qed.

(* ========================================================================= *)
(*  Standard simulator: arithmetic of the three bands                        *)
(* ========================================================================= *)

(** The [rel_acc >= 0.25] band: [c100 >= 0], [c50 >= 0] and
    [c100 + c50 <= relevant]. *)
Lemma osu_band1_bounds (R r : Q) :
  (0 < R)%Q -> (1 # 4 <= r <= 1)%Q ->
  let b := (1 - (r - (1 # 4)) / (3 # 4))%Q in
  let c100 := (6 * R * (1 - r) / (5 * (b * b) + 4))%Q in
  (0 <= c100)%Q /\ (0 <= c100 * (b * b))%Q /\ (c100 + c100 * (b * b) <= R)%Q.
Proof.
  intros HR [Hr0 Hr1] b c100.
  assert (Hb : (b == (4 # 3) * (1 - r))%Q) by (unfold b; field).
  assert (Hb01 : (0 <= b <= 1)%Q) by (rewrite Hb; lra).
  assert (Hbb : (0 <= b * b)%Q) by nra.
  assert (HD : (0 < 5 * (b * b) + 4)%Q) by lra.
  assert (Hc : (0 <= c100)%Q).
  { unfold c100. apply Qle_shift_div_l; [exact HD|]. nra. }
  split; [exact Hc|]. split; [nra|].
  assert (E : (c100 + c100 * (b * b) ==
               6 * R * (1 - r) * (1 + b * b) / (5 * (b * b) + 4))%Q).
  { unfold c100. field. intro H0. rewrite H0 in HD. discriminate. }
  rewrite E. apply Qle_shift_div_r; [exact HD|].
  assert (Hr : (1 - r == (3 # 4) * b)%Q) by (rewrite Hb; field).
  rewrite Hr.
  assert (Hq : (0 <= 9 * (b * b) - b + 8)%Q) by lra.
  assert (Hp : (0 <= R * (1 - b) * (9 * (b * b) - b + 8))%Q).
  { apply Qmult_le_0_compat; [|exact Hq]. apply Qmult_le_0_compat; lra. }
  nra.
Qed.

(** The result dict of [_sim_osu]'s fallback has non-negative counts that sum
    to [total] once [n100], [n50], [misses] are non-negative and fit. *)
Lemma osu_result_counts (total n100 n50 misses : Z) :
  0 <= n100 -> 0 <= n50 -> 0 <= misses -> n100 + n50 + misses <= total ->
  let out := osu_result total n100 n50 misses in
  0 <= count_of out Great /\ 0 <= count_of out Ok /\
  0 <= count_of out Meh /\ 0 <= count_of out Miss /\
  count_of out Great + count_of out Ok + count_of out Meh + count_of out Miss
    = total.
Proof. intros. unfold out, osu_result, zmax0. simpl. lia. Qed.

(* ========================================================================= *)
(*  Catch simulator: the counting loops                                      *)
(* ========================================================================= *)

(** Equality of two counter triples, component-wise by [lia]. *)
Ltac triple_eq :=
  apply f_equal2; [apply f_equal2|]; lia.

Lemma count_where_nil (P : HitObject -> bool) : count_where P [] = 0.
Proof. reflexivity. Qed.

Lemma count_where_cons (P : HitObject -> bool) (h : HitObject) (l : list HitObject) :
  count_where P (h :: l) = (if P h then 1 else 0) + count_where P l.
Proof.
  unfold count_where. cbn [List.filter].
  destruct (P h); cbn [length]; rewrite ?Nat2Z.inj_succ; lia.
Qed.

Lemma count_where_app (P : HitObject -> bool) (l1 l2 : list HitObject) :
  count_where P (l1 ++ l2) = count_where P l1 + count_where P l2.
Proof. unfold count_where. rewrite List.filter_app, length_app. lia. Qed.

(** The inner loop adds the nested fruits, droplets (tiny ones included) and
    tiny droplets to the counters. *)
Lemma fold_count_nested (nested : list HitObject) (f dt t : Z) :
  fold_left count_nested nested (f, dt, t) =
    (f + count_where is_Fruit nested, dt + count_where is_Droplet nested,
     t + count_where is_TinyDroplet nested).
Proof.
  revert f dt t. induction nested as [|n nested IH]; intros f dt t.
  - unfold count_where. simpl. triple_eq.
  - simpl fold_left. rewrite !count_where_cons.
    destruct n; cbn [count_nested is_Fruit is_Droplet is_TinyDroplet];
      rewrite IH; triple_eq.
Qed.

Lemma fold_count_hit_object (hs : list HitObject) (f dt t : Z) :
  fold_left count_hit_object hs (f, dt, t) =
    (f + count_where is_Fruit hs + count_where is_Fruit (flat_map juice_nested hs),
     dt + count_where is_Droplet (flat_map juice_nested hs),
     t + count_where is_TinyDroplet (flat_map juice_nested hs)).
Proof.
  revert f dt t. induction hs as [|h hs IH]; intros f dt t.
  - unfold count_where. simpl. triple_eq.
  - simpl fold_left. cbn [flat_map]. rewrite !count_where_app, !count_where_cons.
    destruct h; cbn [count_hit_object is_Fruit juice_nested];
      rewrite ?fold_count_nested, IH;
      rewrite ?count_where_nil; triple_eq.
Qed.

Lemma catch_counts_spec (beatmap : Beatmap) :
  catch_counts beatmap =
    (spec_max_fruits beatmap, spec_max_droplets_total beatmap,
     spec_max_tiny_droplets beatmap).
Proof.
  unfold catch_counts. rewrite fold_count_hit_object.
  unfold spec_max_fruits, spec_max_droplets_total, spec_max_tiny_droplets,
    all_juice_nested.
  triple_eq.
Qed.

(** The probe of [_has_valid_stats], as a proposition. *)
Lemma has_valid_stats_iff (stats_obj : StatsObj) :
  has_valid_stats stats_obj = true <->
  exists k, In k probe_keys /\ 0 < extract_stat stats_obj k.
Proof.
  destruct stats_obj as [d|]; unfold has_valid_stats.
  - destruct (decide (d = ∅)) as [->|Hne].
    + split; [discriminate|]. intros [k [_ Hk]].
      simpl in Hk. rewrite lookup_empty in Hk. simpl in Hk. lia.
    + rewrite existsb_exists.
      split; intros [k [Hin Hk]]; exists k; split; try assumption.
      * now apply Z.ltb_lt in Hk.
      * now apply Z.ltb_lt.
  - split; [discriminate|]. intros [k [_ Hk]]. simpl in Hk. lia.
Qed.

(* ========================================================================= *)
(*  Lemmas on binary64 rounding                                              *)
(* ========================================================================= *)

Lemma pow2_pos (z : Z) : (0 < pow2 z)%Q.
Proof. apply Qpower_0_lt. reflexivity. Qed.

Lemma pow2_plus (a b : Z) : (pow2 (a + b) == pow2 a * pow2 b)%Q.
Proof. unfold pow2. apply Qpower_plus. discriminate. Qed.

Lemma pow2_le (a b : Z) : a <= b -> (pow2 a <= pow2 b)%Q.
Proof. intros H. apply Qpower_le_compat_l; [exact H | discriminate]. Qed.

Lemma pow2_lt (a b : Z) : a < b -> (pow2 a < pow2 b)%Q.
Proof. intros H. apply Qpower_lt_compat_l; [exact H | reflexivity]. Qed.

Lemma pow2_Z (n : Z) : 0 <= n -> (pow2 n == inject_Z (2 ^ n))%Q.
Proof. intros H. unfold pow2. rewrite Zpower_Qpower by exact H. reflexivity. Qed.

Lemma pow2_succ (z : Z) : (pow2 (z + 1) == 2 * pow2 z)%Q.
Proof. rewrite pow2_plus. unfold pow2 at 2. simpl. ring. Qed.

Lemma qlog2_spec (x : Q) :
  (0 < x)%Q -> (pow2 (qlog2 x) <= x < pow2 (qlog2 x + 1))%Q.
Proof.
  intros Hx. destruct x as [n d].
  assert (Hn : 0 < n).
  { unfold Qlt in Hx. simpl in Hx. lia. }
  unfold qlog2. cbn [Qnum Qden].
  set (ln := Z.log2 n). set (ld := Z.log2 (Z.pos d)).
  set (e := ln - ld).
  destruct (Z.log2_spec n Hn) as [Hn1 Hn2].
  destruct (Z.log2_spec (Z.pos d) ltac:(lia)) as [Hd1 Hd2].
  fold ln in Hn1, Hn2. fold ld in Hd1, Hd2.
  assert (Hln : 0 <= ln) by apply Z.log2_nonneg.
  assert (Hld : 0 <= ld) by apply Z.log2_nonneg.
  set (P := pow2 e).
  set (A := inject_Z (2 ^ ld)). set (B := inject_Z (2 ^ ln)).
  set (N := inject_Z n). set (D := inject_Z (Z.pos d)).
  assert (HPA : (P * A == B)%Q).
  { unfold P, A, B. rewrite <- !pow2_Z by lia. rewrite <- pow2_plus.
    unfold e. replace (ln - ld + ld) with ln by ring. reflexivity. }
  assert (HP : (0 < P)%Q) by apply pow2_pos.
  assert (HB1 : (B <= N)%Q) by (unfold B, N; rewrite <- Zle_Qle; exact Hn1).
  assert (HB2 : (N < 2 * B)%Q).
  { unfold B, N. rewrite Z.pow_succ_r in Hn2 by exact Hln.
    replace 2%Q with (inject_Z 2) by reflexivity. rewrite <- inject_Z_mult.
    rewrite <- Zlt_Qlt. exact Hn2. }
  assert (HA1 : (A <= D)%Q) by (unfold A, D; rewrite <- Zle_Qle; exact Hd1).
  assert (HA2 : (D < 2 * A)%Q).
  { unfold A, D. rewrite Z.pow_succ_r in Hd2 by exact Hld.
    replace 2%Q with (inject_Z 2) by reflexivity. rewrite <- inject_Z_mult.
    rewrite <- Zlt_Qlt. exact Hd2. }
  assert (HA : (0 < A)%Q) by (unfold A; apply inject_Z_pos; lia).
  assert (HxD : ((n # d) * D == N)%Q).
  { unfold D, N. rewrite Qmake_Qdiv. field. unfold inject_Z. intro H0.
    unfold Qeq in H0. simpl in H0. lia. }
  assert (HD : (0 < D)%Q) by lra.
  assert (Up : (n # d < 2 * P)%Q).
  { apply Qnot_le_lt. intro H0.
    assert (2 * P * D <= (n # d) * D)%Q by (apply Qmult_le_compat_r; lra).
    nra. }
  assert (Lo : (P < 2 * (n # d))%Q).
  { apply Qnot_le_lt. intro H0.
    assert (2 * (n # d) * D <= P * D)%Q by (apply Qmult_le_compat_r; lra).
    nra. }
  fold P. destruct (Qle_bool P (n # d)) eqn:E.
  - apply Qle_bool_iff in E. split; [exact E|]. rewrite pow2_succ. exact Up.
  - assert (E' : (n # d < P)%Q).
    { apply Qnot_le_lt. intro H0. apply Qle_bool_iff in H0. congruence. }
    replace (e - 1 + 1) with e by ring. split; [|exact E'].
    assert (HP' : (P == 2 * pow2 (e - 1))%Q).
    { unfold P. rewrite <- pow2_succ. replace (e - 1 + 1) with e by ring.
      reflexivity. }
    lra.
Qed.

Lemma qlog2_unique (x : Q) (e : Z) :
  (pow2 e <= x < pow2 (e + 1))%Q -> qlog2 x = e.
Proof.
  intros [H1 H2].
  assert (Hx : (0 < x)%Q) by (pose proof (pow2_pos e); lra).
  destruct (qlog2_spec x Hx) as [G1 G2].
  destruct (Z.lt_trichotomy (qlog2 x) e) as [L|[L|L]]; [|exact L|].
  - pose proof (pow2_le (qlog2 x + 1) e ltac:(lia)). lra.
  - pose proof (pow2_le (e + 1) (qlog2 x) ltac:(lia)). lra.
Qed.

Lemma qlog2_mono (x y : Q) : (0 < x)%Q -> (x <= y)%Q -> qlog2 x <= qlog2 y.
Proof.
  intros Hx Hxy.
  destruct (qlog2_spec x Hx) as [G1 G2].
  destruct (qlog2_spec y ltac:(lra)) as [K1 K2].
  destruct (Z.le_gt_cases (qlog2 x) (qlog2 y)) as [L|L]; [exact L|].
  pose proof (pow2_le (qlog2 y + 1) (qlog2 x) ltac:(lia)). lra.
Qed.

Lemma div_pow2_le (x y : Q) (q : Z) :
  (x <= y)%Q -> (x / pow2 q <= y / pow2 q)%Q.
Proof.
  intros H. pose proof (pow2_pos q).
  apply Qmult_le_compat_r; [exact H|]. apply Qlt_le_weak, Qinv_lt_0_compat. exact H0.
Qed.

Lemma round_pos_nonneg (x : Q) : (0 < x)%Q -> (0 <= round_pos x)%Q.
Proof.
  intros Hx. unfold round_pos. pose proof (pow2_pos (ulp_exp x)).
  assert (0 <= py_round (x / pow2 (ulp_exp x))).
  { apply py_round_ge_Z. pose proof (div_pow2_le 0 x (ulp_exp x) ltac:(lra)).
    unfold Qdiv in *. rewrite Qmult_0_l in H0. exact H0. }
  apply Qmult_le_0_compat; [|lra]. apply inject_Z_nonneg. lia.
Qed.

Lemma round_pos_upper (x : Q) (k : Z) :
  (0 < x)%Q -> qlog2 x + 1 <= k -> ulp_exp x <= k -> (round_pos x <= pow2 k)%Q.
Proof.
  intros Hx Hk Hq. unfold round_pos. set (q := ulp_exp x) in *.
  destruct (qlog2_spec x Hx) as [_ G2].
  pose proof (pow2_pos q) as Hpq.
  assert (Hxq : (x / pow2 q <= pow2 (k - q))%Q).
  { apply Qle_shift_div_r; [exact Hpq|]. rewrite <- pow2_plus.
    replace (k - q + q) with k by ring.
    pose proof (pow2_le (qlog2 x + 1) k Hk). lra. }
  assert (Hr : py_round (x / pow2 q) <= 2 ^ (k - q)).
  { apply py_round_le_Z. rewrite <- pow2_Z by lia. exact Hxq. }
  apply (Qle_trans _ (inject_Z (2 ^ (k - q)) * pow2 q)).
  - apply Qmult_le_compat_r; [|lra]. rewrite <- Zle_Qle. exact Hr.
  - rewrite <- pow2_Z by lia. rewrite <- pow2_plus.
    replace (k - q + q) with k by ring. apply Qle_refl.
Qed.

Lemma round_pos_lower (y : Q) :
  (0 < y)%Q -> ulp_exp y = qlog2 y - 52 -> (pow2 (qlog2 y) <= round_pos y)%Q.
Proof.
  intros Hy Hq. unfold round_pos. rewrite Hq.
  destruct (qlog2_spec y Hy) as [G1 _].
  set (e := qlog2 y) in *.
  pose proof (pow2_pos (e - 52)) as Hpq.
  assert (Hyq : (pow2 52 <= y / pow2 (e - 52))%Q).
  { apply Qle_shift_div_l; [exact Hpq|]. rewrite <- pow2_plus.
    replace (52 + (e - 52)) with e by ring. exact G1. }
  assert (Hr : 2 ^ 52 <= py_round (y / pow2 (e - 52))).
  { apply py_round_ge_Z. rewrite <- pow2_Z by lia. exact Hyq. }
  apply (Qle_trans _ (inject_Z (2 ^ 52) * pow2 (e - 52))).
  - rewrite <- pow2_Z by lia. rewrite <- pow2_plus.
    replace (52 + (e - 52)) with e by ring. apply Qle_refl.
  - apply Qmult_le_compat_r; [|lra]. rewrite <- Zle_Qle. exact Hr.
Qed.

Lemma round_pos_mono (x y : Q) :
  (0 < x)%Q -> (x <= y)%Q -> (round_pos x <= round_pos y)%Q.
Proof.
  intros Hx Hxy.
  pose proof (qlog2_mono x y Hx Hxy) as He.
  assert (Hq : ulp_exp x <= ulp_exp y) by (unfold ulp_exp; lia).
  destruct (Z.eq_dec (ulp_exp x) (ulp_exp y)) as [E|NE].
  - unfold round_pos. rewrite E. pose proof (pow2_pos (ulp_exp y)).
    apply Qmult_le_compat_r; [|lra]. rewrite <- Zle_Qle.
    apply py_round_mono. apply div_pow2_le. exact Hxy.
  - assert (Ey : ulp_exp y = qlog2 y - 52) by (unfold ulp_exp in *; lia).
    assert (Hlt : qlog2 x < qlog2 y) by (unfold ulp_exp in *; lia).
    apply (Qle_trans _ (pow2 (qlog2 y))).
    + apply round_pos_upper; [exact Hx | lia | lia].
    + apply round_pos_lower; [lra | exact Ey].
Qed.

Lemma fl64_pos (x : Q) : (0 < x)%Q -> fl64 x = round_pos x.
Proof.
  intros H. unfold fl64. destruct (Qcompare_spec x 0); [lra | lra | reflexivity].
Qed.

Lemma fl64_neg (x : Q) : (x < 0)%Q -> fl64 x = Qopp (round_pos (Qopp x)).
Proof.
  intros H. unfold fl64. destruct (Qcompare_spec x 0); [lra | reflexivity | lra].
Qed.

Lemma fl64_zero (x : Q) : (x == 0)%Q -> fl64 x = 0%Q.
Proof.
  intros H. unfold fl64. destruct (Qcompare_spec x 0); [reflexivity | lra | lra].
Qed.

Lemma fl64_sign (x : Q) : (0 <= x)%Q -> (0 <= fl64 x)%Q.
Proof.
  intros H. destruct (Qlt_le_dec 0 x) as [H'|H'].
  - rewrite fl64_pos by exact H'. apply round_pos_nonneg. exact H'.
  - rewrite fl64_zero by lra. apply Qle_refl.
Qed.

Lemma fl64_sign_neg (x : Q) : (x <= 0)%Q -> (fl64 x <= 0)%Q.
Proof.
  intros H. destruct (Qlt_le_dec x 0) as [H'|H'].
  - rewrite fl64_neg by exact H'. pose proof (round_pos_nonneg (- x) ltac:(lra)). lra.
  - rewrite fl64_zero by lra. apply Qle_refl.
Qed.

Lemma fl64_mono (x y : Q) : (x <= y)%Q -> (fl64 x <= fl64 y)%Q.
Proof.
  intros Hxy.
  destruct (Qlt_le_dec 0 x) as [Hx|Hx].
  - rewrite !fl64_pos by lra. apply round_pos_mono; lra.
  - destruct (Qlt_le_dec y 0) as [Hy|Hy].
    + rewrite !fl64_neg by lra.
      pose proof (round_pos_mono (- y) (- x) ltac:(lra) ltac:(lra)). lra.
    + pose proof (fl64_sign_neg x Hx). pose proof (fl64_sign y Hy). lra.
Qed.

Lemma fl64_proper (x y : Q) : (x == y)%Q -> (fl64 x == fl64 y)%Q.
Proof.
  intros H. apply Qle_antisym; apply fl64_mono; lra.
Qed.

Lemma fl64_Z (n : Z) : 0 <= n < 2 ^ 53 -> (fl64 (inject_Z n) == inject_Z n)%Q.
Proof.
  intros Hn. destruct (Z.eq_dec n 0) as [->|Hn0].
  - reflexivity.
  - assert (Hp : (0 < inject_Z n)%Q) by (apply inject_Z_pos; lia).
    rewrite fl64_pos by exact Hp. unfold round_pos.
    destruct (qlog2_spec _ Hp) as [_ G2].
    assert (Hn2 : (inject_Z n < pow2 53)%Q).
    { rewrite pow2_Z by lia. rewrite <- Zlt_Qlt. lia. }
    assert (He : qlog2 (inject_Z n) < 53).
    { destruct (Z.lt_ge_cases (qlog2 (inject_Z n)) 53) as [L|L]; [exact L|].
      pose proof (pow2_le 53 (qlog2 (inject_Z n)) L).
      destruct (qlog2_spec _ Hp). lra. }
    set (q := ulp_exp (inject_Z n)).
    assert (Hq : q <= 0) by (unfold q, ulp_exp; lia).
    assert (Hm : (inject_Z n / pow2 q == inject_Z (n * 2 ^ (- q)))%Q).
    { rewrite inject_Z_mult. rewrite <- pow2_Z by lia.
      unfold pow2. rewrite Qpower_opp. reflexivity. }
    rewrite Hm, py_round_Z. rewrite inject_Z_mult, <- pow2_Z by lia.
    rewrite <- Qmult_assoc, <- pow2_plus. replace (- q + q) with 0 by ring.
    unfold pow2. simpl. ring.
Qed.

Lemma fl64_one : (fl64 1 == 1)%Q.
Proof. vm_compute. reflexivity. Qed.

Lemma to_float_fin (x : Q) :
  (-1099511627776 <= x <= 1099511627776)%Q -> to_float x = Fin (fl64 x).
Proof.
  intros [H1 H2]. unfold to_float.
  pose proof (fl64_mono _ _ H1) as G1. pose proof (fl64_mono _ _ H2) as G2.
  assert (E1 : (fl64 (-1099511627776) == -1099511627776)%Q)
    by (vm_compute; reflexivity).
  assert (E2 : (fl64 1099511627776 == 1099511627776)%Q)
    by (vm_compute; reflexivity).
  assert (Hb : (Qabs (fl64 x) < pow2 1024)%Q).
  { apply (Qle_lt_trans _ 1099511627776).
    - apply Qabs_Qle_condition. lra.
    - change 1099511627776%Q with (pow2 40). apply pow2_lt. lia. }
  unfold overflows. destruct (Qle_bool (pow2 1024) (Qabs (fl64 x))) eqn:E.
  - apply Qle_bool_iff in E. lra.
  - reflexivity.
Qed.

Lemma int_to_float_small (n : Z) :
  0 <= n < 2 ^ 53 -> int_to_float n = PyOk (Fin (fl64 (inject_Z n))).
Proof.
  intros Hn. unfold int_to_float.
  pose proof (fl64_Z n Hn) as E.
  assert (Hb : (Qabs (fl64 (inject_Z n)) < pow2 1024)%Q).
  { rewrite E. apply (Qle_lt_trans _ (inject_Z (2 ^ 53))).
    - apply Qabs_Qle_condition. split; rewrite <- ?Zle_Qle.
      + assert (0 <= inject_Z n)%Q by (apply inject_Z_nonneg; lia).
        assert (0 <= inject_Z (2 ^ 53))%Q by (apply inject_Z_nonneg; lia). lra.
      + lia.
    - rewrite <- pow2_Z by lia. apply pow2_lt. lia. }
  unfold overflows. destruct (Qle_bool (pow2 1024) (Qabs (fl64 (inject_Z n)))) eqn:B.
  - apply Qle_bool_iff in B. lra.
  - reflexivity.
Qed.

(** The upper tier of a Mania band lies in [0, relevant]. *)
Lemma mania_tier_bounds (hi lo w a : Q) (rel : Z) :
  (0 < w)%Q -> (0 <= lo)%Q -> (lo <= a)%Q -> (a <= hi)%Q -> (hi <= 1)%Q ->
  0 < rel < 2 ^ 31 ->
  (fl64 (hi - lo) / w <= inject_Z (2 ^ 20))%Q ->
  (- (1 # 4) <= fl64 (1 - fl64 (fl64 (hi - lo) / w)) * inject_Z (2 ^ 31))%Q ->
  0 <= mania_tier_b64 hi w a rel <= rel.
Proof.
  intros Hw Hlo Hla Hah Hhi Hrel HT HP. unfold mania_tier_b64.
  set (P := fl64 (1 - fl64 (fl64 (hi - lo) / w))) in HP.
  set (d := fl64 (hi - a)). set (D := fl64 (hi - lo)).
  assert (Hd0 : (0 <= d)%Q) by (apply fl64_sign; lra).
  assert (HdD : (d <= D)%Q) by (apply fl64_mono; lra).
  set (t := fl64 (d / w)). set (T := fl64 (D / w)).
  assert (Hdw : (d / w <= D / w)%Q).
  { apply Qmult_le_compat_r; [exact HdD|]. apply Qlt_le_weak, Qinv_lt_0_compat, Hw. }
  assert (Ht0 : (0 <= t)%Q).
  { apply fl64_sign. apply Qle_shift_div_l; [exact Hw|]. lra. }
  assert (HtT : (t <= T)%Q) by (apply fl64_mono; exact Hdw).
  set (p := fl64 (1 - t)).
  assert (Hp1 : (p <= 1)%Q).
  { pose proof (fl64_mono (1 - t) 1 ltac:(lra)). rewrite fl64_one in H. exact H. }
  assert (HpP : (P <= p)%Q).
  { unfold P, p. apply fl64_mono. change (fl64 (fl64 (hi - lo) / w)) with T. lra. }
  set (r := fl64 (inject_Z rel)).
  assert (Hr : (r == inject_Z rel)%Q) by (apply fl64_Z; lia).
  assert (Hr0 : (0 < inject_Z rel)%Q) by (apply inject_Z_pos; lia).
  assert (Hr1 : (inject_Z rel <= inject_Z (2 ^ 31))%Q) by (rewrite <- Zle_Qle; lia).
  split.
  - assert (Hlow : (- (1 # 4) <= p * r)%Q).
    { rewrite Hr.
      assert (M1 : (0 <= (p - P) * inject_Z rel)%Q)
        by (apply Qmult_le_0_compat; lra).
      destruct (Qlt_le_dec P 0) as [HPn|HPn].
      - assert (M2 : (0 <= (- P) * (inject_Z (2 ^ 31) - inject_Z rel))%Q)
          by (apply Qmult_le_0_compat; lra).
        nra.
      - assert (M2 : (0 <= P * inject_Z rel)%Q)
          by (apply Qmult_le_0_compat; lra).
        nra. }
    pose proof (fl64_mono _ _ Hlow) as G.
    assert (E : (fl64 (- (1 # 4)) == - (1 # 4))%Q) by (vm_compute; reflexivity).
    rewrite E in G. apply py_round_mono in G.
    assert (py_round (- (1 # 4)) = 0) by reflexivity. lia.
  - assert (Hup : (p * r <= inject_Z rel)%Q) by (rewrite Hr; nra).
    pose proof (fl64_mono _ _ Hup) as G. rewrite fl64_Z in G by lia.
    apply py_round_le_Z. exact G.
Qed.

Lemma mania_tier_code {A : Type} (hi lo w a : Q) (rel : Z) (k : Z -> Exc A) :
  (0 < w)%Q -> (0 <= lo)%Q -> (lo <= a)%Q -> (a <= hi)%Q -> (hi <= 1)%Q ->
  0 < rel < 2 ^ 31 ->
  (fl64 (hi - lo) / w <= inject_Z (2 ^ 20))%Q ->
  (- (1 # 4) <= fl64 (1 - fl64 (fl64 (hi - lo) / w)) * inject_Z (2 ^ 31))%Q ->
  exc_bind (fdiv (fsub (Fin hi) (Fin a)) (Fin w)) (fun q =>
    exc_bind (int_to_float rel) (fun r =>
      exc_bind (py_round_f (fmul (fsub (Fin 1%Q) q) r)) k)) =
  k (mania_tier_b64 hi w a rel).
Proof.
  intros Hw Hlo Hla Hah Hhi Hrel HT HP.
  assert (B40 : (inject_Z (2 ^ 40) == 1099511627776)%Q) by reflexivity.
  assert (B31 : (inject_Z (2 ^ 31) == 2147483648)%Q) by reflexivity.
  assert (B20 : (inject_Z (2 ^ 20) == 1048576)%Q) by reflexivity.
  unfold fsub, fneg, fadd.
  rewrite (to_float_fin (hi + - a)) by (split; lra).
  set (d := fl64 (hi + - a)).
  assert (Hd0 : (0 <= d)%Q) by (apply fl64_sign; lra).
  assert (HdD : (d <= fl64 (hi - lo))%Q) by (apply fl64_mono; unfold Qminus; lra).
  unfold fdiv.
  destruct (Qeq_bool w 0) eqn:Ew.
  { apply Qeq_bool_iff in Ew. lra. }
  assert (Hdw : (d / w <= fl64 (hi - lo) / w)%Q).
  { apply Qmult_le_compat_r; [exact HdD|]. apply Qlt_le_weak, Qinv_lt_0_compat, Hw. }
  assert (Hdw0 : (0 <= d / w)%Q) by (apply Qle_shift_div_l; [exact Hw| lra]).
  rewrite (to_float_fin (d / w)) by (split; lra). cbn [exc_bind].
  set (t := fl64 (d / w)).
  assert (Ht0 : (0 <= t)%Q) by (apply fl64_sign; exact Hdw0).
  assert (Ht1 : (t <= inject_Z (2 ^ 20))%Q).
  { pose proof (fl64_mono _ _ (Qle_trans _ _ _ Hdw HT)).
    rewrite fl64_Z in H by lia. exact H. }
  rewrite (int_to_float_small rel) by lia. cbn [exc_bind].
  rewrite (to_float_fin (1 + - t)) by (split; lra).
  set (p := fl64 (1 + - t)).
  assert (Hp1 : (p <= 1)%Q).
  { pose proof (fl64_mono (1 + - t) 1 ltac:(lra)). rewrite fl64_one in H. exact H. }
  assert (HpP : (fl64 (1 - fl64 (fl64 (hi - lo) / w)) <= p)%Q).
  { apply fl64_mono. pose proof (fl64_mono _ _ Hdw).
    apply Qplus_le_compat; [apply Qle_refl | apply Qopp_le_compat; exact H]. }
  assert (Hr : (fl64 (inject_Z rel) == inject_Z rel)%Q) by (apply fl64_Z; lia).
  assert (Hr0 : (0 < inject_Z rel)%Q) by (apply inject_Z_pos; lia).
  assert (Hr1 : (inject_Z rel <= inject_Z (2 ^ 31))%Q) by (rewrite <- Zle_Qle; lia).
  assert (Hpm : (- 1 <= p)%Q).
  { assert (- 1 <= fl64 (1 - fl64 (fl64 (hi - lo) / w)))%Q.
    { set (P := fl64 (1 - fl64 (fl64 (hi - lo) / w))) in *.
      assert (inject_Z (2 ^ 31) == 2147483648)%Q by reflexivity. nra. }
    lra. }
  cbn [fmul]. rewrite (to_float_fin (p * fl64 (inject_Z rel))).
  2: { rewrite Hr. split; nra. }
  cbn [py_round_f exc_bind]. reflexivity.
Qed.

Ltac qcheck := vm_compute; first [reflexivity | intro; discriminate | discriminate].

Lemma Qle_bool_false (x y : Q) : Qle_bool x y = false -> (y < x)%Q.
Proof.
  intros E. apply Qnot_le_lt. intro H. apply Qle_bool_iff in H. congruence.
Qed.

Lemma zmax0_id (n : Z) : 0 <= n -> zmax0 n = n.
Proof. unfold zmax0. lia. Qed.

Ltac mania_band hi lo w a rel :=
  rewrite (mania_tier_code hi lo w a rel);
    [| qcheck | qcheck | lra | lra | qcheck | lia | qcheck | qcheck];
  pose proof (mania_tier_bounds hi lo w a rel) as HB;
  destruct HB as [HB0 HB1]; [qcheck | qcheck | lra | lra | qcheck | lia | qcheck | qcheck |];
  cbn [exc_bind]; cbv zeta; rewrite !zmax0_id by lia; reflexivity.

Ltac mania_bounds hi lo w a rel :=
  pose proof (mania_tier_bounds hi lo w a rel) as HB;
  destruct HB as [HB0 HB1]; [qcheck | qcheck | lra | lra | qcheck | lia | qcheck | qcheck |];
  cbv zeta; split; [repeat constructor; simpl; lia | reflexivity].

(* ========================================================================= *)
(*  Claims                                                                   *)
(* ========================================================================= *)

(** C1. For 0 <= accuracyPercent <= 100 and 0 <= missCount <= totalObjects,
    the Standard fallback of [_sim_osu] (no valid explicit statistics) raises
    nothing and returns Great, Ok, Meh and Miss counts that are all >= 0 and
    sum exactly to totalObjects. *)
Theorem sim_osu_fallback_sum (acc : Q) (beatmap : Beatmap) (misses : Z)
    (stats_obj : StatsObj) :
  has_valid_stats stats_obj = false ->
  (0 <= acc <= 100)%Q ->
  0 <= misses <= hit_count beatmap ->
  exists out, sim_osu acc beatmap misses stats_obj = PyOk out /\
    0 <= count_of out Great /\ 0 <= count_of out Ok /\
    0 <= count_of out Meh /\ 0 <= count_of out Miss /\
    count_of out Great + count_of out Ok + count_of out Meh + count_of out Miss
      = hit_count beatmap.
Proof.
  intros Hv [Ha0 Ha1] [Hm0 Hm1]. unfold sim_osu. rewrite Hv. cbv zeta.
  set (total := hit_count beatmap) in *.
  destruct (Z.leb_spec (total - misses) 0) as [Hr|Hr].
  { eexists; split; [reflexivity|]. simpl. lia. }
  pose proof (inject_Z_pos _ Hr) as HR.
  set (R := inject_Z (total - misses)) in *.
  rewrite pydiv_ok by (intro H0; rewrite H0 in HR; discriminate).
  cbn [exc_bind].
  set (r := qmax 0 (qmin 1 _)).
  pose proof (clamp01 ((acc / 100) * inject_Z total / R)%Q) as Hr01.
  fold r in Hr01.
  rewrite inject_Z_mult. fold R.
  change (inject_Z 6) with 6%Q.
  destruct (Qle_bool (1 # 4) r) eqn:E1.
  - apply Qle_bool_iff in E1.
    pose proof (osu_band1_bounds R r HR (conj E1 (proj2 Hr01))) as Hb.
    cbv zeta in Hb.
    set (b := (1 - (r - (1 # 4)) / (3 # 4))%Q) in *.
    rewrite pydiv_ok by (intro H0; nra).
    cbn [exc_bind].
    set (c100 := (6 * R * (1 - r) / (5 * (b * b) + 4))%Q) in *.
    destruct Hb as [Hc100 [Hc50 Hsum]].
    eexists; split; [reflexivity|].
    apply osu_result_counts; [| |lia|].
    + apply py_round_ge_Z. exact Hc100.
    + enough (py_round c100 <= py_round (c100 + c100 * (b * b))) by lia.
      apply py_round_mono. lra.
    + enough (py_round (c100 + c100 * (b * b)) <= total - misses) by lia.
      apply py_round_le_Z. exact Hsum.
  - assert (E1' : (r < 1 # 4)%Q).
    { apply Qnot_le_lt. intro H0. apply Qle_bool_iff in H0. congruence. }
    destruct (Qle_bool (1 / 6) r) eqn:E2.
    + apply Qle_bool_iff in E2. change (1 / 6)%Q with (1 # 6)%Q in E2.
      eexists; split; [reflexivity|].
      assert (Heq : (6 * R * r - R + (R - (6 * R * r - R)) == R)%Q) by ring.
      rewrite Heq.
      replace (py_round R) with (total - misses) by (unfold R; now rewrite py_round_Z).
      assert (H0 : 0 <= py_round (6 * R * r - R)).
      { apply (py_round_ge_Z _ 0). change (inject_Z 0) with 0%Q. nra. }
      assert (H1 : py_round (6 * R * r - R) <= total - misses).
      { apply py_round_le_Z. fold R. nra. }
      apply osu_result_counts; lia.
    + assert (E2' : (r < 1 # 6)%Q).
      { change (1 / 6)%Q with (1 # 6)%Q in E2. apply Qnot_le_lt. intro H0. apply Qle_bool_iff in H0. congruence. }
      eexists; split; [reflexivity|].
      assert (H0 : 0 <= py_round (6 * R * r)).
      { apply (py_round_ge_Z _ 0). change (inject_Z 0) with 0%Q. nra. }
      assert (H1 : py_round (6 * R * r) <= total - misses).
      { apply py_round_le_Z. fold R. nra. }
      apply osu_result_counts; lia.
Qed.

(** C2. Taiko fallback of [_sim_taiko] at accuracyPercent = 0, ten objects
    and no miss: [n_great = round(-10) = -10] is clamped to 0 while
    [n_good = relevant - n_great = 20], so the counts sum to 20, not 10. *)
Theorem sim_taiko_low_accuracy_overcount :
  sim_taiko 0 (other_objects 10) 0 None = [(Great, 0); (Ok, 20); (Miss, 0)] /\
  count_of (sim_taiko 0 (other_objects 10) 0 None) Great +
  count_of (sim_taiko 0 (other_objects 10) 0 None) Ok +
  count_of (sim_taiko 0 (other_objects 10) 0 None) Miss = 20 /\
  hit_count (other_objects 10) = 10.
Proof. vm_compute. repeat split. Qed.

(** C3. When the explicit statistics pass the validity probe, [_sim_osu]
    returns the explicit great/ok/meh/miss values (absent keys read as 0),
    whatever the accuracy, beatmap and miss count; in particular
    {great: 50, ok: 0, meh: 0, miss: 2} yields exactly
    {Great: 50, Ok: 0, Meh: 0, Miss: 2} for every accuracyPercent. *)
Theorem sim_osu_explicit_verbatim (acc : Q) (beatmap : Beatmap) (misses : Z)
    (stats_obj : StatsObj) :
  has_valid_stats stats_obj = true ->
  sim_osu acc beatmap misses stats_obj =
    PyOk [(Great, extract_stat stats_obj "great");
          (Ok, extract_stat stats_obj "ok");
          (Meh, extract_stat stats_obj "meh");
          (Miss, extract_stat stats_obj "miss")] /\
  (forall (acc' : Q) (beatmap' : Beatmap) (misses' : Z),
     sim_osu acc' beatmap' misses' stats_great50_miss2 =
       PyOk [(Great, 50); (Ok, 0); (Meh, 0); (Miss, 2)]).
Proof.
  intros Hv. split.
  - unfold sim_osu. now rewrite Hv.
  - intros acc' beatmap' misses'. unfold sim_osu.
    replace (has_valid_stats stats_great50_miss2) with true by (vm_compute; reflexivity).
    vm_compute. reflexivity.
Qed.

(** C4. The statistics probe holds exactly when one of great, ok, meh, good,
    perfect, miss, large_tick_hit is strictly positive (so None and all-zero
    dicts are "not provided"), and calculate's effective miss count is the
    explicit [miss] field when the probe holds and the caller's [misses]
    otherwise. *)
Theorem has_valid_stats_probe (stats_obj : StatsObj) (misses : Z) :
  (has_valid_stats stats_obj = true <->
   exists k, In k ["great"; "ok"; "meh"; "good"; "perfect"; "miss";
                   "large_tick_hit"] /\ 0 < extract_stat stats_obj k) /\
  effective_misses misses stats_obj =
    (if has_valid_stats stats_obj then extract_stat stats_obj "miss"
     else misses).
Proof. split; [apply has_valid_stats_iff | reflexivity]. Qed.


(** C7 (corrected). With the accuracy an int or a float [x] in [0, 100],
    0 <= missCount, 0 < relevant = totalObjects - missCount and
    totalObjects < 2^31 (HitObjects.Count is a .NET Int32), the Mania
    fallback of [_sim_mania] raises nothing and is the five-band split
    computed in binary64 floats: in the band of [acc / 100.0] the upper tier
    gets round(p * relevant), with p and the product rounded to floats, and
    the lower tier the remainder of relevant; below 0.60 all relevant
    objects are Meh; every count is >= 0 and Miss = missCount.  Accuracy 98
    with 200 objects and no miss gives {Perfect: 100, Great: 100, Good: 0,
    Ok: 0, Meh: 0, Miss: 0}; accuracy 97 with 6 objects gives
    {Perfect: 1, Great: 5, ...}. *)
Theorem sim_mania_fallback_bands (acc : PyNum) (x : Q) (beatmap : Beatmap)
    (misses : Z) (score_val : option Q) (stats_obj : StatsObj) :
  has_valid_stats stats_obj = false ->
  as_float acc = PyOk (Fin x) -> (0 <= x <= 100)%Q ->
  0 <= misses -> 0 < hit_count beatmap - misses -> hit_count beatmap < 2 ^ 31 ->
  let out := mania_band_split_b64 (fl64 (x / 100)) (hit_count beatmap - misses)
               misses in
  sim_mania_f acc beatmap misses score_val stats_obj = PyOk out /\
  Forall (fun kv => 0 <= snd kv) out /\
  count_of out Miss = misses /\
  sim_mania_f (PyInt 98) (other_objects 200) 0 None None =
    PyOk [(Perfect, 100); (Great, 100); (Good, 0); (Ok, 0); (Meh, 0); (Miss, 0)] /\
  sim_mania_f (PyInt 97) (other_objects 6) 0 None None =
    PyOk [(Perfect, 1); (Great, 5); (Good, 0); (Ok, 0); (Meh, 0); (Miss, 0)].
Proof.
  intros Hv Hacc Hx Hm Hr Htot out.
  pose proof (acc_fraction _ Hx) as Hx'.
  set (a := fl64 (x / 100)) in *.
  set (rel := hit_count beatmap - misses) in *.
  assert (Ha : (0 <= a <= 1)%Q).
  { split; [apply fl64_sign; lra|].
    pose proof (fl64_mono (x / 100) 1 ltac:(lra)). rewrite fl64_one in H. exact H. }
  assert (Hrel : 0 < rel < 2 ^ 31) by lia.
  (* the five bands, and the bounds of their upper tiers *)
  assert (Hout : out =
    if Qle_bool (fl64 (96 # 100)) a then
      let u := mania_tier_b64 1 (fl64 (4 # 100)) a rel in
      [(Perfect, u); (Great, rel - u); (Good, 0); (Ok, 0); (Meh, 0); (Miss, misses)]
    else if Qle_bool (fl64 (90 # 100)) a then
      let u := mania_tier_b64 (fl64 (96 # 100)) (fl64 (6 # 100)) a rel in
      [(Perfect, 0); (Great, u); (Good, rel - u); (Ok, 0); (Meh, 0); (Miss, misses)]
    else if Qle_bool (fl64 (80 # 100)) a then
      let u := mania_tier_b64 (fl64 (90 # 100)) (fl64 (10 # 100)) a rel in
      [(Perfect, 0); (Great, 0); (Good, u); (Ok, rel - u); (Meh, 0); (Miss, misses)]
    else if Qle_bool (fl64 (60 # 100)) a then
      let u := mania_tier_b64 (fl64 (80 # 100)) (fl64 (20 # 100)) a rel in
      [(Perfect, 0); (Great, 0); (Good, 0); (Ok, u); (Meh, rel - u); (Miss, misses)]
    else
      [(Perfect, 0); (Great, 0); (Good, 0); (Ok, 0); (Meh, rel); (Miss, misses)])
    by reflexivity.
  assert (Hcode : sim_mania_f acc beatmap misses score_val stats_obj = PyOk out).
  { unfold sim_mania_f. rewrite Hv. cbv zeta. rewrite Hacc. cbn [exc_bind].
    unfold fdiv at 1. change (Qeq_bool 100%Q 0%Q) with false. cbv iota.
    rewrite (to_float_fin (x / 100)%Q) by (split; lra).
    cbn [exc_bind]. fold a. fold rel.
    replace (0 <? rel) with true by (symmetry; apply Z.ltb_lt; lia).
    cbn [fge lit]. rewrite Hout.
    destruct (Qle_bool (fl64 (96 # 100)) a) eqn:E1.
    { apply Qle_bool_iff in E1. mania_band 1%Q (fl64 (96 # 100)) (fl64 (4 # 100)) a rel. }
    apply Qle_bool_false in E1.
    destruct (Qle_bool (fl64 (90 # 100)) a) eqn:E2.
    { apply Qle_bool_iff in E2.
      mania_band (fl64 (96 # 100)) (fl64 (90 # 100)) (fl64 (6 # 100)) a rel. }
    apply Qle_bool_false in E2.
    destruct (Qle_bool (fl64 (80 # 100)) a) eqn:E3.
    { apply Qle_bool_iff in E3.
      mania_band (fl64 (90 # 100)) (fl64 (80 # 100)) (fl64 (10 # 100)) a rel. }
    apply Qle_bool_false in E3.
    destruct (Qle_bool (fl64 (60 # 100)) a) eqn:E4.
    { apply Qle_bool_iff in E4.
      mania_band (fl64 (80 # 100)) (fl64 (60 # 100)) (fl64 (20 # 100)) a rel. }
    cbn [exc_bind]. rewrite !zmax0_id by lia. reflexivity. }
  split; [exact Hcode|].
  assert (Hnn : Forall (fun kv => 0 <= snd kv) out /\ count_of out Miss = misses).
  { rewrite Hout.
    destruct (Qle_bool (fl64 (96 # 100)) a) eqn:E1.
    { apply Qle_bool_iff in E1.
      mania_bounds 1%Q (fl64 (96 # 100)) (fl64 (4 # 100)) a rel. }
    apply Qle_bool_false in E1.
    destruct (Qle_bool (fl64 (90 # 100)) a) eqn:E2.
    { apply Qle_bool_iff in E2.
      mania_bounds (fl64 (96 # 100)) (fl64 (90 # 100)) (fl64 (6 # 100)) a rel. }
    apply Qle_bool_false in E2.
    destruct (Qle_bool (fl64 (80 # 100)) a) eqn:E3.
    { apply Qle_bool_iff in E3.
      mania_bounds (fl64 (90 # 100)) (fl64 (80 # 100)) (fl64 (10 # 100)) a rel. }
    apply Qle_bool_false in E3.
    destruct (Qle_bool (fl64 (60 # 100)) a) eqn:E4.
    { apply Qle_bool_iff in E4.
      mania_bounds (fl64 (80 # 100)) (fl64 (60 # 100)) (fl64 (20 # 100)) a rel. }
    split; [repeat constructor; simpl; lia | reflexivity]. }
  destruct Hnn as [Hnn Hmiss].
  split; [exact Hnn|]. split; [exact Hmiss|].
  split; vm_compute; reflexivity.
Qed.

(** C7, counterexample.  Accuracy 97 with 6 objects and no miss: in exact
    arithmetic p = 1 - (1 - 0.97) / 0.04 = 0.25 and round(0.25 * 6) =
    round(1.5) = 2 Perfects; in binary64, 1 - 0.97 is 0.030000000000000027,
    p is 0.2499999999999993 and p * 6 = 1.4999999999999958 rounds to 1.  So
    the program gives 1 Perfect and 5 Greats where the exact band formula
    gives 2 and 4. *)
Lemma sim_mania_fallback_exact_tie :
  sim_mania_f (PyInt 97) (other_objects 6) 0 None None =
    PyOk [(Perfect, 1); (Great, 5); (Good, 0); (Ok, 0); (Meh, 0); (Miss, 0)] /\
  mania_band_split (97 / 100) 6 0 =
    [(Perfect, 2); (Great, 4); (Good, 0); (Ok, 0); (Meh, 0); (Miss, 0)].
Proof. split; vm_compute; reflexivity. Qed.

(** C6. Without valid explicit statistics, [_sim_catch] returns
    {Great: maxFruits, LargeTickHit: max(0, maxDroplets - missCount),
    SmallTickHit: maxTinyDroplets, Miss: missCount} with the counts derived
    from the chart as the spec describes; the result does not depend on the
    accuracy; the chart with maxFruits = 30, maxDroplets = 10,
    maxTinyDroplets = 5 and missCount = 3 gives {Great: 30, LargeTickHit: 7,
    SmallTickHit: 5, Miss: 3}. *)
Theorem sim_catch_fallback (acc acc' : Q) (beatmap : Beatmap) (misses : Z)
    (stats_obj : StatsObj) :
  has_valid_stats stats_obj = false ->
  sim_catch acc beatmap misses stats_obj =
    [(Great, spec_max_fruits beatmap);
     (LargeTickHit, Z.max 0 (spec_max_droplets beatmap - misses));
     (SmallTickHit, spec_max_tiny_droplets beatmap);
     (Miss, misses)] /\
  sim_catch acc beatmap misses stats_obj = sim_catch acc' beatmap misses stats_obj /\
  (spec_max_fruits catch_chart_30_10_5 = 30 /\
   spec_max_droplets catch_chart_30_10_5 = 10 /\
   spec_max_tiny_droplets catch_chart_30_10_5 = 5 /\
   sim_catch acc catch_chart_30_10_5 3 None =
     [(Great, 30); (LargeTickHit, 7); (SmallTickHit, 5); (Miss, 3)]).
Proof.
  intros Hv. split; [|split].
  - unfold sim_catch. rewrite Hv, catch_counts_spec. reflexivity.
  - unfold sim_catch. rewrite Hv. reflexivity.
  - vm_compute. repeat split.
Qed.

(** C8. When the absolute path of [file_path] does not exist, [calculate]
    returns (does not raise) the error dict {"error": "File not found: " +
    abs_path}, whose message contains the absolute path. *)
Theorem calculate_missing_file {Handle Mods : Type}
    (env : Collaborators Handle Mods) (file_path : string) (mode : Z)
    (mods : option (list string)) (acc : Q) (combo : option Z) (misses : Z)
    (score_val : option Q) (statistics : StatsObj) :
  path_exists env (abspath env file_path) = false ->
  exists msg,
    calculate env file_path mode mods acc combo misses score_val statistics =
      PyOk (CalcError msg) /\
    msg = String.append "File not found: " (abspath env file_path) /\
    exists prefix, msg = String.append prefix (abspath env file_path).
Proof.
  intros Hx. eexists. split; [|split; [reflexivity|]].
  - unfold calculate. cbv zeta. rewrite Hx. reflexivity.
  - eexists. reflexivity.
Qed.

(** C9 (counterexample). A collaborator can raise an exception whose class
    is not an [Exception] subclass: a [KeyboardInterrupt] raised while the
    chart is decoded is not caught by [except Exception] and propagates out
    of [calculate]. *)
Lemma calculate_keyboard_interrupt_propagates :
  Decode (stub_env true (PyRaise KeyboardInterrupt)) tt = PyRaise KeyboardInterrupt /\
  calculate (stub_env true (PyRaise KeyboardInterrupt)) "chart.osu" 0 None 100
    None 0 None None = PyRaise KeyboardInterrupt.
Proof. split; reflexivity. Qed.

(** C9 (amended). Whatever the collaborators do, an exception leaves
    [calculate] only if its class does not derive from [Exception] or it
    was raised by [Dispose] in the [finally] clause.  When the disposals
    succeed, an [Exception] raised in the [try] block is returned as
    {"error": str(e)}, and an exception deriving only from [BaseException]
    propagates unchanged.  An exception raised by [reader.Dispose()], or by
    [fs.Dispose()] after the reader was disposed, propagates whatever the
    outcome of the [try] block. *)
Theorem calculate_catches_Exception {Handle Mods : Type}
    (env : Collaborators Handle Mods) (file_path : string) (mode : Z)
    (mods : option (list string)) (acc : Q) (combo : option Z) (misses : Z)
    (score_val : option Q) (statistics : StatsObj) :
  (forall e,
     calculate env file_path mode mods acc combo misses score_val statistics =
       PyRaise e ->
     exn_is_Exception e = false \/ exists h, Dispose env h = Some e) /\
  (forall fs reader e,
     path_exists env (abspath env file_path) = true ->
     ruleset_known mode = true ->
     calc_try env (abspath env file_path) mode
       (match mods with None => [] | Some m => m end)
       acc combo misses score_val statistics = (fs, reader, PyRaise e) ->
     exn_is_Exception e = true ->
     dispose_opt env reader = None -> dispose_opt env fs = None ->
     calculate env file_path mode mods acc combo misses score_val statistics =
       PyOk (CalcError (exn_msg e))) /\
  (forall fs reader e,
     path_exists env (abspath env file_path) = true ->
     ruleset_known mode = true ->
     calc_try env (abspath env file_path) mode
       (match mods with None => [] | Some m => m end)
       acc combo misses score_val statistics = (fs, reader, PyRaise e) ->
     exn_is_Exception e = false ->
     dispose_opt env reader = None -> dispose_opt env fs = None ->
     calculate env file_path mode mods acc combo misses score_val statistics =
       PyRaise e) /\
  (forall fs reader outcome e,
     path_exists env (abspath env file_path) = true ->
     ruleset_known mode = true ->
     calc_try env (abspath env file_path) mode
       (match mods with None => [] | Some m => m end)
       acc combo misses score_val statistics = (fs, reader, outcome) ->
     (dispose_opt env reader = Some e \/
      (dispose_opt env reader = None /\ dispose_opt env fs = Some e)) ->
     calculate env file_path mode mods acc combo misses score_val statistics =
       PyRaise e).
Proof.
  split; [|split; [|split]].
  - intros e. unfold calculate. cbv zeta.
    destruct (path_exists env _); simpl; [|discriminate].
    destruct (ruleset_known mode); simpl; [|discriminate].
    destruct (calc_try _ _ _ _ _ _ _ _ _) as [[fs reader] outcome].
    unfold py_finally, dispose_opt.
    destruct reader as [r|]; [destruct (Dispose env r) eqn:Er|];
      [intros [= <-]; right; now exists r| |];
      (destruct fs as [f|]; [destruct (Dispose env f) eqn:Ef|]);
      try (intros [= <-]; right; now exists f);
      destruct outcome as [res|e']; try discriminate;
      destruct (exn_is_Exception e') eqn:Ee; try discriminate;
      intros [= <-]; left; exact Ee.
  - intros fs reader e Hx Hm Ht He Hr Hf. unfold calculate. cbv zeta.
    rewrite Hx, Hm. simpl. rewrite Ht, He. unfold py_finally. now rewrite Hr, Hf.
  - intros fs reader e Hx Hm Ht He Hr Hf. unfold calculate. cbv zeta.
    rewrite Hx, Hm. simpl. rewrite Ht, He. unfold py_finally. now rewrite Hr, Hf.
  - intros fs reader outcome e Hx Hm Ht Hd. unfold calculate. cbv zeta.
    rewrite Hx, Hm. simpl. rewrite Ht. unfold py_finally.
    destruct Hd as [Hr|[Hr Hf]]; rewrite Hr; [reflexivity|now rewrite Hf].
Qed.

(** C10. Statistics whose probe fields (great, ok, meh, good, perfect, miss,
    large_tick_hit) are all absent or <= 0 -- for instance only
    small_tick_hit and small_tick_miss set -- fail the probe: calculate keeps
    the caller's miss count and the Catch dispatch runs the fallback
    simulation with it, as without statistics. *)
Theorem catch_small_tick_stats_discarded (acc : Q) (beatmap : Beatmap)
    (misses : Z) (score_val : option Q) (d : gmap string Z) :
  (forall k, In k ["great"; "ok"; "meh"; "good"; "perfect"; "miss";
                   "large_tick_hit"] -> default 0 (d !! k) <= 0) ->
  has_valid_stats (Some d) = false /\
  effective_misses misses (Some d) = misses /\
  sim_dispatch 2 acc beatmap (effective_misses misses (Some d)) score_val (Some d) =
    PyOk (sim_catch acc beatmap misses None) /\
  sim_dispatch 2 acc beatmap (effective_misses misses (Some stats_small_ticks_only))
    score_val (Some stats_small_ticks_only) =
    PyOk (sim_catch acc beatmap misses None).
Proof.
  intros Hk.
  assert (Hv : has_valid_stats (Some d) = false).
  { destruct (has_valid_stats (Some d)) eqn:E; [|reflexivity].
    apply has_valid_stats_iff in E.
    destruct E as [k [Hin Hpos]]. specialize (Hk k Hin). simpl in Hpos. lia. }
  assert (Hs : has_valid_stats (Some stats_small_ticks_only) = false)
    by (vm_compute; reflexivity).
  unfold effective_misses, sim_dispatch. rewrite Hv, Hs. simpl.
  unfold sim_catch. rewrite Hv, Hs. repeat split.
Qed.

(* ========================================================================= *)
(*  Witnesses: the claims' theorems at concrete inputs                       *)
(* ========================================================================= *)

Lemma sim_osu_fallback_sum_witness :
  exists out, sim_osu 95 (other_objects 100) 3 None = PyOk out /\
    0 <= count_of out Great /\ 0 <= count_of out Ok /\
    0 <= count_of out Meh /\ 0 <= count_of out Miss /\
    count_of out Great + count_of out Ok + count_of out Meh + count_of out Miss
      = 100.
Proof.
  apply (sim_osu_fallback_sum 95 (other_objects 100) 3 None).
  - reflexivity.
  - split; apply Qle_bool_iff; vm_compute; reflexivity.
  - vm_compute. split; discriminate.
Defined.

Lemma sim_osu_explicit_verbatim_witness :
  has_valid_stats stats_great50_miss2 = true /\
  sim_osu 97 (other_objects 60) 1 stats_great50_miss2 =
    PyOk [(Great, 50); (Ok, 0); (Meh, 0); (Miss, 2)].
Proof.
  assert (Hv : has_valid_stats stats_great50_miss2 = true)
    by (vm_compute; reflexivity).
  split; [exact Hv|].
  destruct (sim_osu_explicit_verbatim 97 (other_objects 60) 1
              stats_great50_miss2 Hv) as [E _].
  rewrite E. vm_compute. reflexivity.
Defined.


Lemma sim_catch_fallback_witness :
  sim_catch 50 catch_chart_30_10_5 3 None =
    [(Great, 30); (LargeTickHit, 7); (SmallTickHit, 5); (Miss, 3)].
Proof.
  destruct (sim_catch_fallback 50 0 catch_chart_30_10_5 3 None eq_refl) as [E _].
  rewrite E. vm_compute. reflexivity.
Defined.

Lemma sim_mania_fallback_bands_witness :
  sim_mania_f (PyFlt (Fin 98)) (other_objects 200) 0 None None =
    PyOk (mania_band_split_b64 (fl64 (98 / 100)) 200 0).
Proof.
  refine (proj1 (sim_mania_fallback_bands (PyFlt (Fin 98)) 98 (other_objects 200)
                   0 None None _ _ _ _ _ _)).
  - reflexivity.
  - reflexivity.
  - split; lra.
  - lia.
  - vm_compute. reflexivity.
  - vm_compute. reflexivity.
Defined.

Lemma calculate_missing_file_witness :
  exists msg,
    calculate (stub_env false (PyOk (mkBeatmap []))) "chart.osu" 0 None 100
      None 0 None None = PyOk (CalcError msg) /\
    msg = "File not found: /home/user/chart.osu"%string /\
    exists prefix, msg = String.append prefix "/home/user/chart.osu".
Proof.
  apply (calculate_missing_file (stub_env false (PyOk (mkBeatmap []))) "chart.osu").
  reflexivity.
Defined.

Lemma calculate_catches_Exception_witness :
  calculate (stub_env true (PyRaise DecodeFailure)) "chart.osu" 0 None 100
    None 0 None None = PyOk (CalcError "Beatmap could not be decoded").
Proof.
  apply (proj1 (proj2 (calculate_catches_Exception
                  (stub_env true (PyRaise DecodeFailure))
                  "chart.osu" 0 None 100 None 0 None None)) (Some tt) (Some tt)
                  DecodeFailure); reflexivity.
Defined.

Lemma catch_small_tick_stats_discarded_witness :
  effective_misses 7 (Some stats_small_ticks_only) = 7.
Proof.
  apply (catch_small_tick_stats_discarded 50 catch_chart_30_10_5 7 None
           stats_small_ticks_only).
  intros k Hk. simpl in Hk.
  repeat (destruct Hk as [<-|Hk]; [vm_compute; discriminate|]). contradiction.
Defined.

(* ========================================================================= *)
(*  Further properties of the simulators, calculate, _parse_mods and setup   *)
(* ========================================================================= *)


(** In the Standard fallback the reported Miss count is never below the
    caller's [misses] (when [misses >= 0]): the bands at or above 1/6 keep
    it, the lowest band raises it to [total - n50]. *)
Theorem sim_osu_miss_not_below_input (acc : Q) (beatmap : Beatmap) (misses : Z)
    (stats_obj : StatsObj) (out : HitStats) :
  has_valid_stats stats_obj = false -> 0 <= misses ->
  sim_osu acc beatmap misses stats_obj = PyOk out ->
  misses <= count_of out Miss.
Proof.
  intros Hv Hm. unfold sim_osu. rewrite Hv. cbv zeta.
  set (total := hit_count beatmap).
  destruct (Z.leb_spec (total - misses) 0) as [Hr|Hr].
  { intros [= <-]. simpl. lia. }
  pose proof (inject_Z_pos _ Hr) as HR.
  set (R := inject_Z (total - misses)) in *.
  rewrite pydiv_ok by (intro H0; rewrite H0 in HR; discriminate).
  cbn [exc_bind].
  set (r := qmax 0 (qmin 1 _)).
  pose proof (clamp01 ((acc / 100) * inject_Z total / R)%Q) as Hr01.
  fold r in Hr01.
  destruct (Qle_bool (1 # 4) r) eqn:E1.
  - destruct (pydiv _ _); cbn [exc_bind]; [|discriminate].
    intros [= <-]. unfold osu_result, zmax0. simpl. lia.
  - destruct (Qle_bool (1 / 6) r) eqn:E2.
    + intros [= <-]. unfold osu_result, zmax0. simpl. lia.
    + assert (E2' : (r < 1 # 6)%Q).
      { change (1 / 6)%Q with (1 # 6)%Q in E2. apply Qnot_le_lt. intro H0.
        apply Qle_bool_iff in H0. congruence. }
      intros [= <-]. unfold osu_result, zmax0. simpl.
      rewrite inject_Z_mult. change (inject_Z 6) with 6%Q. fold R.
      assert (H1 : py_round (6 * R * r) <= total - misses).
      { apply py_round_le_Z. fold R. nra. }
      lia.
Qed.

(** In the Standard fallback, when [relevant > 0] and the relative accuracy
    [accuracy * total / relevant] is below 0.25, the result has no Great:
    the 1/6 band splits [relevant] into Ok and Meh, the lowest band puts the
    rest into Miss. *)
Theorem sim_osu_no_great_below_quarter (acc : Q) (beatmap : Beatmap)
    (misses : Z) (stats_obj : StatsObj) (out : HitStats) :
  has_valid_stats stats_obj = false ->
  misses < hit_count beatmap ->
  ((acc / 100) * inject_Z (hit_count beatmap) /
     inject_Z (hit_count beatmap - misses) < 1 # 4)%Q ->
  sim_osu acc beatmap misses stats_obj = PyOk out ->
  count_of out Great = 0.
Proof.
  intros Hv Hlt Hx. unfold sim_osu. rewrite Hv. cbv zeta.
  set (total := hit_count beatmap) in *.
  replace (total - misses <=? 0) with false by (symmetry; apply Z.leb_gt; lia).
  assert (Hr : 0 < total - misses) by lia.
  pose proof (inject_Z_pos _ Hr) as HR.
  set (R := inject_Z (total - misses)) in *.
  rewrite pydiv_ok by (intro H0; rewrite H0 in HR; discriminate).
  cbn [exc_bind].
  set (x := (acc / 100 * inject_Z total / R)%Q) in *.
  assert (Hq : (qmax 0 (qmin 1 x) < 1 # 4)%Q).
  { unfold qmin. destruct (Qlt_le_dec x 1); [|exfalso; lra].
    unfold qmax. destruct (Qlt_le_dec 0 x); lra. }
  set (r := qmax 0 (qmin 1 x)) in *.
  destruct (Qle_bool (1 # 4) r) eqn:E1.
  { apply Qle_bool_iff in E1. exfalso. lra. }
  destruct (Qle_bool (1 / 6) r) eqn:E2.
  - intros [= <-]. unfold osu_result, zmax0. simpl.
    rewrite (py_round_proper (_ + (R - _))%Q R) by ring.
    unfold R. rewrite py_round_Z. lia.
  - intros [= <-]. unfold osu_result, zmax0. simpl. lia.
Qed.

(** At accuracy 100 with [0 <= misses <= total] and no valid explicit
    statistics, every non-missed object gets the top judgment: Great for
    Standard (when some object is not missed) and Taiko, Perfect for Mania;
    the other tiers are 0 and Miss is [misses]. *)
Theorem sim_perfect_accuracy (beatmap : Beatmap) (misses : Z)
    (score_val : option Q) (stats_obj : StatsObj) :
  has_valid_stats stats_obj = false ->
  0 <= misses <= hit_count beatmap ->
  (misses < hit_count beatmap ->
   sim_osu 100 beatmap misses stats_obj =
     PyOk [(Great, hit_count beatmap - misses); (Ok, 0); (Meh, 0);
           (Miss, misses)]) /\
  sim_taiko 100 beatmap misses stats_obj =
    [(Great, hit_count beatmap - misses); (Ok, 0); (Miss, misses)] /\
  sim_mania 100 beatmap misses score_val stats_obj =
    [(Perfect, hit_count beatmap - misses); (Great, 0); (Good, 0); (Ok, 0);
     (Meh, 0); (Miss, misses)].
Proof.
  intros Hv Hm.
  set (total := hit_count beatmap) in *.
  split; [|split].
  - intros Hlt. unfold sim_osu. rewrite Hv. cbv zeta. fold total.
    replace (total - misses <=? 0) with false by (symmetry; apply Z.leb_gt; lia).
    assert (Hr : 0 < total - misses) by lia.
    pose proof (inject_Z_pos _ Hr) as HR.
    rewrite pydiv_ok by (intro H0; rewrite H0 in HR; discriminate).
    cbn [exc_bind].
    assert (Hq : (1 <= 100 / 100 * inject_Z total / inject_Z (total - misses))%Q).
    { apply Qle_shift_div_l; [exact HR|]. qdiv_const.
      assert (inject_Z (total - misses) <= inject_Z total)%Q
        by (rewrite <- Zle_Qle; lia).
      lra. }
    replace (qmax 0 (qmin 1 _)) with 1%Q.
    2:{ unfold qmin. destruct (Qlt_le_dec _ 1) as [Hx|Hx]; [exfalso; lra|].
        unfold qmax. destruct (Qlt_le_dec 0 1) as [_|Hx']; [reflexivity|].
        exfalso; lra. }
    cbn - [py_round pydiv inject_Z Qmult Qdiv Qminus Qplus].
    rewrite pydiv_ok by (intro H0; vm_compute in H0; discriminate).
    cbn [exc_bind].
    replace (Qle_bool (1 # 4) 1) with true by reflexivity.
    match goal with |- context [py_round (?x * (1 - 1) / ?d)%Q] =>
      set (c := (x * (1 - 1) / d)%Q) end.
    assert (Hc : (c == 0)%Q).
    { assert (E0 : (1 - 1 == 0)%Q) by reflexivity.
      unfold c. rewrite E0. unfold Qdiv. ring. }
    rewrite (py_round_proper (c + c * _)%Q 0%Q) by (rewrite Hc; ring).
    rewrite (py_round_proper c 0%Q Hc).
    replace (py_round 0%Q) with 0 by reflexivity.
    unfold osu_result, zmax0. repeat f_equal; lia.
  - unfold sim_taiko. rewrite Hv. cbv zeta. fold total.
    rewrite (py_round_proper _ (inject_Z (total - misses)))
      by (qdiv_const; ring).
    rewrite py_round_Z. unfold zmax0.
    repeat f_equal; lia.
  - unfold sim_mania. rewrite Hv. cbv zeta. fold total.
    destruct (Z.ltb_spec 0 (total - misses)) as [Hr|Hr].
    + replace (Qle_bool (96 # 100) (100 / 100)) with true by reflexivity.
      rewrite (py_round_proper _ (inject_Z (total - misses)))
        by (qdiv_const; ring).
      rewrite py_round_Z. unfold zmax0. repeat f_equal; lia.
    + unfold zmax0. repeat f_equal; lia.
Qed.

(** The Taiko fallback for [0 <= acc <= 100] and [0 <= misses <= total]:
    Great lies in [0, relevant], Ok is non-negative, Miss is [misses]; the
    three counts never sum to less than [total], and they sum to exactly
    [total] once [acc >= 50]. *)
Theorem sim_taiko_fallback_total (acc : Q) (beatmap : Beatmap) (misses : Z)
    (stats_obj : StatsObj) :
  has_valid_stats stats_obj = false ->
  (0 <= acc <= 100)%Q -> 0 <= misses <= hit_count beatmap ->
  let out := sim_taiko acc beatmap misses stats_obj in
  0 <= count_of out Great <= hit_count beatmap - misses /\
  0 <= count_of out Ok /\ count_of out Miss = misses /\
  hit_count beatmap <= count_of out Great + count_of out Ok + count_of out Miss /\
  ((50 <= acc)%Q ->
   count_of out Great + count_of out Ok + count_of out Miss = hit_count beatmap).
Proof.
  intros Hv Hacc Hm out. unfold out, sim_taiko. rewrite Hv. cbv zeta.
  pose proof (acc_fraction _ Hacc) as Ha.
  set (a := (acc / 100)%Q) in *.
  set (rel := hit_count beatmap - misses) in *.
  assert (HR : (0 <= inject_Z rel)%Q) by (apply inject_Z_nonneg; lia).
  assert (Hg1 : py_round ((2 * a - 1) * inject_Z rel) <= rel)
    by (apply py_round_le_Z; nra).
  assert (Hg0 : - rel <= py_round ((2 * a - 1) * inject_Z rel)).
  { apply py_round_ge_Z. rewrite inject_Z_opp. nra. }
  assert (Hhalf : (50 <= acc)%Q -> 0 <= py_round ((2 * a - 1) * inject_Z rel)).
  { intros H50. apply (py_round_ge_Z _ 0). change (inject_Z 0) with 0%Q.
    assert (1 # 2 <= a)%Q by (unfold a; qdiv_const; lra). nra. }
  unfold zmax0. simpl. repeat split; try lia.
  intros H50. specialize (Hhalf H50). lia.
Qed.

(** The Mania fallback for [0 <= acc <= 100] and [0 <= misses <= total]
    (also when every object is missed): the six counts sum to [total]. *)
Theorem sim_mania_fallback_total (acc : Q) (beatmap : Beatmap) (misses : Z)
    (score_val : option Q) (stats_obj : StatsObj) :
  has_valid_stats stats_obj = false ->
  (0 <= acc <= 100)%Q -> 0 <= misses <= hit_count beatmap ->
  let out := sim_mania acc beatmap misses score_val stats_obj in
  count_of out Perfect + count_of out Great + count_of out Good +
  count_of out Ok + count_of out Meh + count_of out Miss = hit_count beatmap.
Proof.
  intros Hv Hacc Hm out. unfold out, sim_mania. rewrite Hv. cbv zeta.
  pose proof (acc_fraction _ Hacc) as Ha.
  set (a := (acc / 100)%Q) in *.
  set (rel := hit_count beatmap - misses) in *.
  destruct (Z.ltb_spec 0 rel) as [Hr|Hr].
  2:{ unfold zmax0. simpl. lia. }
  destruct (Qle_bool (96 # 100) a) eqn:E1; [apply Qle_bool_iff in E1|].
  { pose proof (round_share (1 - (1 - a) / (4 # 100)) rel Hr
                  ltac:(qdiv_const; lra)).
    unfold zmax0. simpl. lia. }
  assert (E1' : (a < 96 # 100)%Q).
  { apply Qnot_le_lt. intro H0. apply Qle_bool_iff in H0. congruence. }
  destruct (Qle_bool (90 # 100) a) eqn:E2; [apply Qle_bool_iff in E2|].
  { pose proof (round_share (1 - ((96 # 100) - a) / (6 # 100)) rel Hr
                  ltac:(qdiv_const; lra)).
    unfold zmax0. simpl. lia. }
  assert (E2' : (a < 90 # 100)%Q).
  { apply Qnot_le_lt. intro H0. apply Qle_bool_iff in H0. congruence. }
  destruct (Qle_bool (80 # 100) a) eqn:E3; [apply Qle_bool_iff in E3|].
  { pose proof (round_share (1 - ((90 # 100) - a) / (10 # 100)) rel Hr
                  ltac:(qdiv_const; lra)).
    unfold zmax0. simpl. lia. }
  assert (E3' : (a < 80 # 100)%Q).
  { apply Qnot_le_lt. intro H0. apply Qle_bool_iff in H0. congruence. }
  destruct (Qle_bool (60 # 100) a) eqn:E4; [apply Qle_bool_iff in E4|].
  { pose proof (round_share (1 - ((80 # 100) - a) / (20 # 100)) rel Hr
                  ltac:(qdiv_const; lra)).
    unfold zmax0. simpl. lia. }
  unfold zmax0. simpl. lia.
Qed.

Lemma count_where_le (P P' : HitObject -> bool) (l : list HitObject) :
  (forall h, P h = true -> P' h = true) ->
  count_where P l <= count_where P' l.
Proof.
  intros HP. induction l as [|h l IH]; [rewrite !count_where_nil; lia|].
  rewrite !count_where_cons.
  destruct (P h) eqn:E; [rewrite (HP h E)|destruct (P' h)]; lia.
Qed.

(** [maxDroplets] is never negative: every tiny droplet is a droplet. *)
Lemma spec_max_droplets_nonneg (beatmap : Beatmap) :
  0 <= spec_max_droplets beatmap.
Proof.
  unfold spec_max_droplets, spec_max_droplets_total, spec_max_tiny_droplets.
  enough (count_where is_TinyDroplet (all_juice_nested beatmap) <=
          count_where is_Droplet (all_juice_nested beatmap)) by lia.
  apply count_where_le. intros [] H; easy.
Qed.

(** The Catch fallback with [misses >= 0]: LargeTickHit lies in
    [0, maxDroplets], and when [misses <= maxDroplets] the Great,
    LargeTickHit and Miss counts add up to the combo-relevant object count
    [maxFruits + maxDroplets] ([max_combo] in the source). *)
Theorem sim_catch_combo_total (acc : Q) (beatmap : Beatmap) (misses : Z)
    (stats_obj : StatsObj) :
  has_valid_stats stats_obj = false -> 0 <= misses ->
  let out := sim_catch acc beatmap misses stats_obj in
  0 <= count_of out LargeTickHit <= spec_max_droplets beatmap /\
  (misses <= spec_max_droplets beatmap ->
   count_of out Great + count_of out LargeTickHit + count_of out Miss =
     spec_max_fruits beatmap + spec_max_droplets beatmap).
Proof.
  intros Hv Hm out. unfold out, sim_catch. rewrite Hv, catch_counts_spec.
  pose proof (spec_max_droplets_nonneg beatmap).
  unfold spec_max_droplets in *. simpl. lia.
Qed.

(** With valid explicit statistics, the counts dispatched by [calculate]
    for any mode depend on the statistics alone, not on the accuracy, the
    beatmap, the caller's miss count or [score_val]; for modes 0 to 3 the
    reported Miss is the effective miss count. *)
Theorem sim_dispatch_explicit_stats (mode : Z) (acc acc' : Q)
    (beatmap beatmap' : Beatmap) (misses misses' : Z)
    (score_val score_val' : option Q) (statistics : StatsObj) :
  has_valid_stats statistics = true ->
  sim_dispatch mode acc beatmap (effective_misses misses statistics) score_val
    statistics =
  sim_dispatch mode acc' beatmap' (effective_misses misses' statistics)
    score_val' statistics /\
  (forall out,
     ruleset_known mode = true ->
     sim_dispatch mode acc beatmap (effective_misses misses statistics)
       score_val statistics = PyOk out ->
     count_of out Miss = effective_misses misses statistics).
Proof.
  intros Hv. unfold effective_misses. rewrite Hv. split.
  - unfold sim_dispatch, sim_osu, sim_taiko, sim_catch, sim_mania.
    rewrite Hv. reflexivity.
  - intros out Hm. unfold ruleset_known in Hm.
    apply andb_true_iff in Hm as [H0 H3].
    apply Z.leb_le in H0. apply Z.leb_le in H3.
    unfold sim_dispatch, sim_osu, sim_taiko, sim_catch, sim_mania. rewrite Hv.
    assert (Hc : mode = 0 \/ mode = 1 \/ mode = 2 \/ mode = 3) by lia.
    destruct Hc as [ -> | [ -> | [ -> | -> ]]]; simpl; intros [= <-]; reflexivity.
Qed.

(** When every collaborator succeeds, [calculate] returns the success dict
    for the mode with the difficulty's star rating, the performance value of
    a score carrying [combo] (or the beatmap's max combo when [combo] is
    None), accuracy [acc / 100] and the simulated statistics; its
    [max_combo] is the beatmap's max combo whatever [combo] is. *)
Theorem calculate_success {Handle Mods : Type}
    (env : Collaborators Handle Mods) (file_path : string) (mode : Z)
    (mods : option (list string)) (acc : Q) (combo : option Z) (misses : Z)
    (score_val : option Q) (statistics : StatsObj)
    (fs reader : Handle) (beatmap beatmap' : Beatmap) (can : bool)
    (csharp_mods : Mods) (diff_attr : DiffAttr) (stats : HitStats) (pp : Q) :
  path_exists env (abspath env file_path) = true ->
  ruleset_known mode = true ->
  FileStream env (abspath env file_path) = PyOk fs ->
  LineBufferedReader env fs = PyOk reader ->
  Decode env reader = PyOk beatmap ->
  CanConvert env mode beatmap = PyOk can ->
  (if can then Convert env mode beatmap else PyOk beatmap) = PyOk beatmap' ->
  parse_mods env mode (match mods with None => [] | Some m => m end) =
    PyOk csharp_mods ->
  difficulty env mode beatmap' csharp_mods = PyOk diff_attr ->
  sim_dispatch mode acc beatmap' (effective_misses misses statistics)
    score_val statistics = PyOk stats ->
  performance env mode
    (mkScoreInfo mode csharp_mods
       (match combo with Some c => c | None => MaxCombo diff_attr end)
       (acc / 100)%Q stats) diff_attr = PyOk pp ->
  Dispose env reader = None -> Dispose env fs = None ->
  calculate env file_path mode mods acc combo misses score_val statistics =
    PyOk (CalcSuccess mode (StarRating diff_attr) pp (MaxCombo diff_attr) stats).
Proof.
  intros Hx Hm Hfs Hrd Hdec Hcan Hconv Hmods Hdiff Hsim Hpp Hdr Hdf.
  unfold calculate. cbv zeta. rewrite Hx, Hm. simpl.
  unfold calc_try. rewrite Hfs, Hrd, Hdec. simpl. rewrite Hcan. simpl.
  rewrite Hconv. simpl. rewrite Hmods. simpl. rewrite Hdiff. simpl.
  rewrite Hsim. simpl. rewrite Hpp. simpl.
  unfold py_finally, dispose_opt. rewrite Hdr, Hdf. reflexivity.
Qed.

(** For an existing file and a mode outside 0..3, [calculate] returns
    {"error": "Invalid mode"} whatever the .NET collaborators would do: the
    file is never opened. *)
Theorem calculate_invalid_mode {Handle Mods : Type}
    (env : Collaborators Handle Mods) (file_path : string) (mode : Z)
    (mods : option (list string)) (acc : Q) (combo : option Z) (misses : Z)
    (score_val : option Q) (statistics : StatsObj) :
  path_exists env (abspath env file_path) = true ->
  mode < 0 \/ 3 < mode ->
  calculate env file_path mode mods acc combo misses score_val statistics =
    PyOk (CalcError "Invalid mode").
Proof.
  intros Hx Hm. unfold calculate. cbv zeta. rewrite Hx.
  replace (ruleset_known mode) with false; [reflexivity|].
  unfold ruleset_known. symmetry. apply andb_false_iff.
  destruct Hm; [left|right]; apply Z.leb_gt; lia.
Qed.

(** The [finally] clause runs on every exit of the [try] block: whatever
    its outcome (a result, a caught error or an escaping exception), an
    exception of [reader.Dispose()], or of [fs.Dispose()] after the reader
    was disposed, is what [calculate] raises. *)
Theorem calculate_dispose_error_wins {Handle Mods : Type}
    (env : Collaborators Handle Mods) (file_path : string) (mode : Z)
    (mods : option (list string)) (acc : Q) (combo : option Z) (misses : Z)
    (score_val : option Q) (statistics : StatsObj)
    (fs reader : option Handle) (outcome : Exc CalcResult) (e : PyExn) :
  path_exists env (abspath env file_path) = true ->
  ruleset_known mode = true ->
  calc_try env (abspath env file_path) mode
    (match mods with None => [] | Some m => m end)
    acc combo misses score_val statistics = (fs, reader, outcome) ->
  (dispose_opt env reader = Some e \/
   (dispose_opt env reader = None /\ dispose_opt env fs = Some e)) ->
  calculate env file_path mode mods acc combo misses score_val statistics =
    PyRaise e.
Proof.
  intros Hx Hm Ht Hd. unfold calculate. cbv zeta. rewrite Hx, Hm. simpl.
  rewrite Ht. unfold py_finally.
  destruct Hd as [Hr|[Hr Hf]]; rewrite Hr; [reflexivity|now rewrite Hf].
Qed.

(** The loop of [_parse_mods] appends, for each requested acronym, its
    found mod or its warning line. *)
Lemma parse_mods_fold (upper : string -> string) (available_mods : list Mod)
    (ms : list string) (acc : list Mod) (printed : list string) :
  fold_left (parse_mods_step upper available_mods) ms (acc, printed) =
    (acc ++ flat_map (mod_found upper available_mods) ms,
     printed ++ flat_map (mod_warning upper available_mods) ms).
Proof.
  revert acc printed. induction ms as [|m ms IH]; intros acc printed.
  - simpl. now rewrite !app_nil_r.
  - simpl. unfold mod_found at 1, mod_warning at 1.
    destruct (find (acronym_matches upper m) available_mods); rewrite IH;
      now rewrite <- !app_assoc.
Qed.

Lemma parse_mods_flat (upper : string -> string) (available_mods : list Mod)
    (mod_list : option (list string)) :
  let ms := match mod_list with None => [] | Some ms => ms end in
  parse_mods_impl upper available_mods mod_list =
    (flat_map (mod_found upper available_mods) ms,
     flat_map (mod_warning upper available_mods) ms).
Proof.
  destruct mod_list as [[|m ms]|]; try reflexivity.
  cbn zeta. unfold parse_mods_impl. now rewrite parse_mods_fold.
Qed.

(** What one requested acronym contributes: the first available mod whose
    upper-cased acronym equals its upper-cased form and no warning, or, when
    there is none, no mod and its warning line. *)
Lemma parse_mods_one (upper : string -> string) (available_mods : list Mod)
    (m : string) :
  (exists x, mod_found upper available_mods m = [x] /\
             mod_warning upper available_mods m = [] /\
             In x available_mods /\ upper (Acronym x) = upper m) \/
  (mod_found upper available_mods m = [] /\
   mod_warning upper available_mods m =
     [String.append "Warning: Mod '" (String.append m "' not found.")] /\
   forall x, In x available_mods -> upper (Acronym x) <> upper m).
Proof.
  unfold mod_found, mod_warning.
  destruct (find (acronym_matches upper m) available_mods) as [y|] eqn:Ef.
  - left. exists y. apply find_some in Ef as [Hin Hmatch].
    unfold acronym_matches in Hmatch. apply String.eqb_eq in Hmatch. auto.
  - right. split; [reflexivity|]. split; [reflexivity|].
    intros x Hin Heq. pose proof (find_none _ _ Ef x Hin) as Hf.
    unfold acronym_matches in Hf. rewrite Heq, String.eqb_refl in Hf.
    discriminate.
Qed.

(** [_parse_mods] returns, in request order, one mod for each requested
    acronym some available mod matches up to [upper()] and prints one
    warning for each other one: every requested acronym gives exactly one
    returned mod of [CreateAllMods()] with that acronym up to case and no
    warning, or no mod and the line "Warning: Mod 'm' not found." when no
    available mod matches.  Hence the returned mods are mods of
    [CreateAllMods()] matching a requested acronym, and their number plus
    the number of warnings is the number of requested acronyms.  This holds
    for any [upper], so for Python's Unicode [str.upper]. *)
Theorem parse_mods_from_available (upper : string -> string)
    (available_mods : list Mod) (mod_list : option (list string)) :
  let requested := match mod_list with None => [] | Some ms => ms end in
  let '(csharp_mods, printed) := parse_mods_impl upper available_mods mod_list in
  csharp_mods = flat_map (mod_found upper available_mods) requested /\
  printed = flat_map (mod_warning upper available_mods) requested /\
  Forall (fun m =>
    (exists x, mod_found upper available_mods m = [x] /\
               mod_warning upper available_mods m = [] /\
               In x available_mods /\ upper (Acronym x) = upper m) \/
    (mod_found upper available_mods m = [] /\
     mod_warning upper available_mods m =
       [String.append "Warning: Mod '" (String.append m "' not found.")] /\
     forall x, In x available_mods -> upper (Acronym x) <> upper m))
    requested /\
  (length csharp_mods + length printed = length requested)%nat /\
  Forall (fun x => In x available_mods /\
            exists m, In m requested /\ upper (Acronym x) = upper m)
    csharp_mods.
Proof.
  cbv zeta. rewrite parse_mods_flat.
  set (ms := match mod_list with None => [] | Some ms => ms end).
  split; [reflexivity|]. split; [reflexivity|].
  split; [apply List.Forall_forall; intros m _; apply parse_mods_one|].
  split.
  - clearbody ms. induction ms as [|m ms IH]; [reflexivity|].
    simpl. rewrite !length_app.
    destruct (parse_mods_one upper available_mods m)
      as [[x [Hf [Hw _]]]|[Hf [Hw _]]]; rewrite Hf, Hw; simpl; lia.
  - apply List.Forall_forall. intros x Hx. apply in_flat_map in Hx as [m [Hm Hx]].
    destruct (parse_mods_one upper available_mods m)
      as [[y [Hf [_ [Hin Hu]]]]|[Hf _]]; rewrite Hf in Hx; [|contradiction].
    destruct Hx as [<-|[]]. split; [exact Hin|]. exists m. auto.
Qed.

(** [_parse_mods] ignores the case of the requested acronyms: two requests
    equal after [upper()] return the same mods. *)
Theorem parse_mods_case_insensitive (upper : string -> string)
    (available_mods : list Mod) (ms1 ms2 : list string) :
  map upper ms1 = map upper ms2 ->
  fst (parse_mods_impl upper available_mods (Some ms1)) =
  fst (parse_mods_impl upper available_mods (Some ms2)).
Proof.
  intros Hu. rewrite !parse_mods_flat. simpl.
  revert ms2 Hu. induction ms1 as [|m1 ms1 IH]; intros [|m2 ms2] Hu;
    try discriminate; [reflexivity|].
  simpl in Hu. injection Hu as Hm Hms. simpl. rewrite (IH ms2 Hms).
  f_equal. unfold mod_found, acronym_matches. now rewrite Hm.
Qed.

(** [_parse_mods] treats requested acronyms one at a time: the result for a
    concatenation is the concatenation of the results (so duplicates are
    kept), and an acronym that no available mod matches after [upper()]
    adds nothing but the line "Warning: Mod 'm' not found.". *)
Theorem parse_mods_concat (upper : string -> string) (available_mods : list Mod)
    (ms1 ms2 : list string) (m : string) :
  parse_mods_impl upper available_mods (Some (ms1 ++ ms2)) =
    (fst (parse_mods_impl upper available_mods (Some ms1)) ++
       fst (parse_mods_impl upper available_mods (Some ms2)),
     snd (parse_mods_impl upper available_mods (Some ms1)) ++
       snd (parse_mods_impl upper available_mods (Some ms2))) /\
  ((forall x, In x available_mods -> upper (Acronym x) <> upper m) ->
   parse_mods_impl upper available_mods (Some [m]) =
     ([], [String.append "Warning: Mod '" (String.append m "' not found.")])).
Proof.
  split.
  - rewrite !parse_mods_flat. simpl. now rewrite !flat_map_app.
  - intros Hno. rewrite parse_mods_flat. simpl.
    destruct (parse_mods_one upper available_mods m)
      as [[x [_ [_ [Hin Hu]]]]|[Hf [Hw _]]].
    + exfalso. exact (Hno x Hin Hu).
    + rewrite Hf, Hw. reflexivity.
Qed.

(** When [AddReference] raises only [Exception]s, the DLL loop raises
    nothing and issues the warnings of its iterations in order. *)
Lemma load_libs_tolerant (host : Host) (folder : string) (libs : list string) :
  (forall path e, AddReference host path = Some e -> exn_is_Exception e = true) ->
  load_libs host folder libs = (flat_map (lib_warning host folder) libs, None).
Proof.
  intros HA. induction libs as [|lib libs IH]; [reflexivity|].
  simpl. unfold lib_warning at 1. cbv zeta.
  destruct (path_is_present host _).
  - destruct (AddReference host _) as [e|] eqn:E; [|exact IH].
    rewrite (HA _ _ E), IH. reflexivity.
  - rewrite IH. reflexivity.
Qed.

(** One iteration of the DLL loop issues at most one warning. *)
Lemma lib_warning_length (host : Host) (folder lib : string) :
  (length (lib_warning host folder lib) <= 1)%nat.
Proof.
  unfold lib_warning. cbv zeta.
  destruct (path_is_present host _); [destruct (AddReference host _)|];
    simpl; lia.
Qed.

(** [setup] from an uninitialised state with an existing DLL folder,
    pythonnet installed, [import clr] working and [load] / [AddReference]
    raising only [Exception]s succeeds: it marks the environment
    initialised, records the folder and appends it to [sys.path]; missing
    or unloadable DLLs only give warnings, in the order of [libs_to_load]:
    at most one per DLL, none exactly for a present DLL that
    [AddReference] loads, so at most six in all. *)
Theorem setup_tolerates_dll_failures (host : Host) (st : EnvState)
    (dll_folder_path : option string) :
  initialized st = false ->
  path_is_present host (requested_folder host dll_folder_path) = true ->
  pythonnet_installed host = true ->
  (forall e, load_coreclr host = Some e -> exn_is_Exception e = true) ->
  import_clr host = None ->
  (forall path e, AddReference host path = Some e -> exn_is_Exception e = true) ->
  let folder := requested_folder host dll_folder_path in
  let ws := flat_map (lib_warning host folder) libs_to_load in
  setup host st dll_folder_path =
    (mkEnvState true (Some folder) (sys_path st ++ [folder]), ws, None) /\
  (forall lib, (length (lib_warning host folder lib) <= 1)%nat) /\
  (forall lib, lib_warning host folder lib = [] <->
     path_is_present host (path_div host folder lib) = true /\
     AddReference host (strip_dll (path_div host folder lib)) = None) /\
  (length ws <= length libs_to_load)%nat.
Proof.
  intros Hi Hp Hpy Hload Himp HA folder ws.
  assert (H1 : forall lib, (length (lib_warning host folder lib) <= 1)%nat)
    by (intros lib; apply lib_warning_length).
  split; [|split; [exact H1|split]].
  - unfold ws, folder, setup. rewrite Hi, Hp, Hpy, Himp.
    rewrite (load_libs_tolerant host _ libs_to_load HA).
    destruct (load_coreclr host) as [e|] eqn:El;
      [rewrite (Hload e eq_refl)|]; reflexivity.
  - intros lib. unfold lib_warning. cbv zeta.
    destruct (path_is_present host (path_div host folder lib));
      [destruct (AddReference host _)|].
    + split; [intros H; discriminate H | intros [_ H]; discriminate H].
    + split; auto.
    + split; [intros H; discriminate H | intros [H _]; discriminate H].
  - unfold ws. clear ws. induction libs_to_load as [|lib libs IH]; [simpl; lia|].
    simpl. rewrite length_app. specialize (H1 lib). lia.
Qed.

(** After a [setup] from an uninitialised state that raises nothing, the
    environment is initialised, [_dll_folder] is an existing folder (the
    requested one or the development fallback) and it is the one entry
    appended to [sys.path]; every later [setup] call, with any host and any
    path, changes nothing. *)
Theorem setup_success_then_noop (host : Host) (st st' : EnvState)
    (dll_folder_path : option string) (ws : list string) :
  initialized st = false ->
  setup host st dll_folder_path = (st', ws, None) ->
  initialized st' = true /\
  (exists f, (f = requested_folder host dll_folder_path \/
              f = Path host dev_folder) /\
     path_is_present host f = true /\ dll_folder st' = Some f /\
     sys_path st' = sys_path st ++ [f]) /\
  (forall (host' : Host) (p : option string), setup host' st' p = (st', [], None)).
Proof.
  intros Hi. unfold setup. rewrite Hi.
  set (f0 := requested_folder host dll_folder_path).
  destruct (path_is_present host f0) eqn:E0;
  [|destruct (path_is_present host (Path host dev_folder)) eqn:E1];
  [| |intros [= <- <- ?]; discriminate];
  (destruct (pythonnet_installed host);
   [destruct (load_coreclr host) as [e|];
    [destruct (exn_is_Exception e)|]|]);
  cbn iota;
  try (intros [= <- <- ?]; discriminate);
  (destruct (import_clr host); [intros [= <- <- ?]; discriminate|]);
  destruct (load_libs _ _ _) as [ws0 [e'|]];
  try (intros [= <- <- ?]; discriminate);
  intros [= <- <-]; (split; [reflexivity|split]);
  try (intros; reflexivity);
  eexists; repeat split; eauto.
Qed.

(** When neither the requested DLL folder nor the development fallback
    exists, [setup] raises FileNotFoundError naming the requested folder,
    leaves [sys.path] unchanged and the environment uninitialised. *)
Theorem setup_missing_folder (host : Host) (st : EnvState)
    (dll_folder_path : option string) :
  initialized st = false ->
  path_is_present host (requested_folder host dll_folder_path) = false ->
  path_is_present host (Path host dev_folder) = false ->
  setup host st dll_folder_path =
    (mkEnvState false (Some (requested_folder host dll_folder_path)) (sys_path st),
     [],
     Some (FileNotFoundError
             (String.append "找不到 DLL 目录: " (requested_folder host dll_folder_path)))).
Proof. intros Hi H0 H1. unfold setup. now rewrite Hi, H0, H1. Qed.

(** When pythonnet is missing, [setup] raises ImportError after appending
    the DLL folder to [sys.path] and without marking the environment
    initialised, so a second call appends the same folder again and raises
    again. *)
Theorem setup_retry_appends_again (host : Host) (st : EnvState)
    (dll_folder_path : option string) :
  initialized st = false ->
  path_is_present host (requested_folder host dll_folder_path) = true ->
  pythonnet_installed host = false ->
  let f := requested_folder host dll_folder_path in
  let '(st1, _, r1) := setup host st dll_folder_path in
  let '(st2, _, r2) := setup host st1 dll_folder_path in
  r1 = Some (ImportError "请先安装 pythonnet: pip install pythonnet") /\
  r2 = r1 /\ initialized st2 = false /\
  sys_path st1 = sys_path st ++ [f] /\
  sys_path st2 = sys_path st ++ [f; f].
Proof.
  intros Hi Hp Hpy. cbv zeta. unfold setup at 1. rewrite Hi, Hp, Hpy. cbn iota.
  unfold setup. cbn [initialized]. rewrite Hp, Hpy. cbn.
  repeat split. now rewrite <- app_assoc.
Qed.

(* ========================================================================= *)
(*  Witnesses of the further properties                                      *)
(* ========================================================================= *)

Lemma sim_osu_miss_not_below_input_witness :
  2 <= count_of [(Great, 0); (Ok, 0); (Meh, 60); (Miss, 40)] Miss.
Proof.
  apply (sim_osu_miss_not_below_input 10 (other_objects 100) 2 None).
  - reflexivity.
  - lia.
  - vm_compute. reflexivity.
Defined.

Lemma sim_osu_no_great_below_quarter_witness :
  count_of [(Great, 0); (Ok, 20); (Meh, 80); (Miss, 0)] Great = 0.
Proof.
  apply (sim_osu_no_great_below_quarter 20 (other_objects 100) 0 None).
  - reflexivity.
  - vm_compute. reflexivity.
  - vm_compute. reflexivity.
  - vm_compute. reflexivity.
Defined.

Lemma sim_perfect_accuracy_witness :
  sim_osu 100 (other_objects 50) 3 None =
    PyOk [(Great, 47); (Ok, 0); (Meh, 0); (Miss, 3)] /\
  sim_mania 100 (other_objects 50) 3 None None =
    [(Perfect, 47); (Great, 0); (Good, 0); (Ok, 0); (Meh, 0); (Miss, 3)].
Proof.
  destruct (sim_perfect_accuracy (other_objects 50) 3 None None eq_refl
              ltac:(vm_compute; split; discriminate)) as [Ho [_ Hm]].
  split; [apply Ho; vm_compute; reflexivity | exact Hm].
Defined.

Lemma sim_taiko_fallback_total_witness :
  count_of (sim_taiko 80 (other_objects 100) 5 None) Great +
  count_of (sim_taiko 80 (other_objects 100) 5 None) Ok +
  count_of (sim_taiko 80 (other_objects 100) 5 None) Miss = 100.
Proof.
  apply (sim_taiko_fallback_total 80 (other_objects 100) 5 None).
  - reflexivity.
  - split; apply Qle_bool_iff; vm_compute; reflexivity.
  - vm_compute. split; discriminate.
  - apply Qle_bool_iff; vm_compute; reflexivity.
Defined.

Lemma sim_mania_fallback_total_witness :
  let out := sim_mania 93 (other_objects 200) 4 None None in
  count_of out Perfect + count_of out Great + count_of out Good +
  count_of out Ok + count_of out Meh + count_of out Miss = 200.
Proof.
  apply (sim_mania_fallback_total 93 (other_objects 200) 4 None None).
  - reflexivity.
  - split; apply Qle_bool_iff; vm_compute; reflexivity.
  - vm_compute. split; discriminate.
Defined.

Lemma sim_catch_combo_total_witness :
  count_of (sim_catch 50 catch_chart_30_10_5 3 None) Great +
  count_of (sim_catch 50 catch_chart_30_10_5 3 None) LargeTickHit +
  count_of (sim_catch 50 catch_chart_30_10_5 3 None) Miss = 40.
Proof.
  destruct (sim_catch_combo_total 50 catch_chart_30_10_5 3 None eq_refl
              ltac:(lia)) as [_ H].
  rewrite H; vm_compute; [reflexivity|discriminate].
Defined.

Lemma sim_dispatch_explicit_stats_witness :
  sim_dispatch 0 97 (other_objects 60) (effective_misses 1 stats_great50_miss2)
    None stats_great50_miss2 =
  sim_dispatch 0 12 (other_objects 5) (effective_misses 9 stats_great50_miss2)
    (Some 1%Q) stats_great50_miss2.
Proof.
  apply (sim_dispatch_explicit_stats 0 97 12 (other_objects 60) (other_objects 5)
           1 9 None (Some 1%Q) stats_great50_miss2).
  vm_compute. reflexivity.
Defined.

Lemma calculate_success_witness :
  calculate (stub_env true (PyOk (other_objects 100))) "chart.osu" 0 None 95
    (Some 80) 3 None None =
    PyOk (CalcSuccess 0 5 200 100 [(Great, 94); (Ok, 3); (Meh, 0); (Miss, 3)]).
Proof.
  apply (calculate_success (stub_env true (PyOk (other_objects 100)))
           "chart.osu" 0 None 95 (Some 80) 3 None None tt tt
           (other_objects 100) (other_objects 100) false tt (mkDiffAttr 5 100));
    vm_compute; reflexivity.
Defined.

Lemma calculate_invalid_mode_witness :
  calculate (stub_env true (PyOk (other_objects 100))) "chart.osu" 4 None 95
    None 0 None None = PyOk (CalcError "Invalid mode").
Proof.
  apply calculate_invalid_mode; [reflexivity | right; lia].
Defined.

Lemma calculate_dispose_error_wins_witness :
  calculate (dispose_fail_env (PyRaise DecodeFailure)) "chart.osu" 0 None 100
    None 0 None None = PyRaise DisposeFailure.
Proof.
  apply (calculate_dispose_error_wins (dispose_fail_env (PyRaise DecodeFailure))
           "chart.osu" 0 None 100 None 0 None None (Some tt) (Some tt)
           (PyRaise DecodeFailure)); try reflexivity.
  left. reflexivity.
Defined.

Lemma parse_mods_case_insensitive_witness :
  fst (parse_mods_impl str_upper demo_mods (Some ["hd"; "Dt"])) =
  fst (parse_mods_impl str_upper demo_mods (Some ["HD"; "DT"])).
Proof.
  apply (parse_mods_case_insensitive str_upper). vm_compute. reflexivity.
Defined.

Lemma parse_mods_concat_witness :
  parse_mods_impl str_upper demo_mods (Some ["EZ"]) =
    ([], ["Warning: Mod 'EZ' not found."%string]).
Proof.
  apply (proj2 (parse_mods_concat str_upper demo_mods [] [] "EZ")).
  intros x Hx. simpl in Hx.
  repeat (destruct Hx as [<-|Hx]; [vm_compute; discriminate|]). contradiction.
Defined.

Lemma setup_tolerates_dll_failures_witness :
  setup (demo_host true true) fresh_env None =
    (mkEnvState true (Some "/opt/osu_lib/lib")
       ["/usr/lib/python3"; "/opt/osu_lib/lib"],
     flat_map (lib_warning (demo_host true true)
                 (requested_folder (demo_host true true) None)) libs_to_load,
     None).
Proof.
  refine (proj1 (setup_tolerates_dll_failures (demo_host true true) fresh_env None
                   _ _ _ _ _ _)).
  - reflexivity.
  - reflexivity.
  - reflexivity.
  - intros e He. discriminate.
  - reflexivity.
  - intros path e. simpl. destruct (String.eqb _ _); intros [= <-]; reflexivity.
Defined.

Lemma setup_success_then_noop_witness :
  setup (demo_host false false)
    (mkEnvState true (Some "/opt/osu_lib/lib")
       ["/usr/lib/python3"; "/opt/osu_lib/lib"]) (Some "/elsewhere") =
    (mkEnvState true (Some "/opt/osu_lib/lib")
       ["/usr/lib/python3"; "/opt/osu_lib/lib"], [], None).
Proof.
  apply (setup_success_then_noop (demo_host true true) fresh_env
           (mkEnvState true (Some "/opt/osu_lib/lib")
              ["/usr/lib/python3"; "/opt/osu_lib/lib"]) None
           ["加载 osu.Framework.dll 失败: Could not load osu.Framework"%string]).
  - reflexivity.
  - vm_compute. reflexivity.
Defined.

Lemma setup_missing_folder_witness :
  setup (demo_host false true) fresh_env (Some "/data/osu") =
    (mkEnvState false (Some "/data/osu") ["/usr/lib/python3"], [],
     Some (FileNotFoundError "找不到 DLL 目录: /data/osu")).
Proof.
  apply (setup_missing_folder (demo_host false true) fresh_env (Some "/data/osu"));
    reflexivity.
Defined.

Lemma setup_retry_appends_again_witness :
  sys_path (fst (fst (setup (demo_host true false)
    (fst (fst (setup (demo_host true false) fresh_env None))) None))) =
  ["/usr/lib/python3"; "/opt/osu_lib/lib"; "/opt/osu_lib/lib"].
Proof.
  pose proof (setup_retry_appends_again (demo_host true false) fresh_env None
                eq_refl eq_refl eq_refl) as H.
  vm_compute in H. destruct H as [_ [_ [_ [_ H]]]].
  vm_compute. exact H.
Defined.
